(** * Search business logic ([search/api.py]): query construction and
      result post-processing, embedded in Rocq.

    The two public operations of the module, [perform_search] and
    [course_discovery_search], are Python functions that
    - read configuration from [django.conf.settings] through [getattr],
    - call three collaborators ([SearchFilterGenerator], [SearchEngine],
      [SearchResultProcessor]) that live outside the module,
    - read the wall clock ([datetime.utcnow()]),
    - build and overwrite dictionaries, and
    - mutate, in place, the hit dictionaries that the engine returned.

    The embedding keeps all of this visible: Python values are an inductive
    type, dictionaries are [gmap string value], dictionary objects that are
    mutated in place live in a heap and are held by reference, and the
    functions are written in a state-and-exception monad whose state holds
    the clock, the heap and the chronological trace of outside calls.

    Not modelled: the [log.info] lines (they only format dictionaries).

    What the heap holds. Only the hit dictionaries are heap objects. The
    response dictionary of an engine and the dictionaries of the filter
    generator are held as values, and the statements that write to them in
    place ([results[...] = ...], [exclude_dictionary[...] = ...]) are
    modelled by the dictionary that results: the properties below speak of
    the contents that are passed on and returned, not of who else sees
    these writes. The result processor gets a payload and answers with a
    payload; it is taken not to write to the heap. *)

From Stdlib Require Import ZArith String Ascii List.
From stdpp Require Import gmap strings list fin_maps.

Open Scope string_scope.
Open Scope list_scope.
Open Scope Z_scope.

(** ** Python values *)

(** A [datetime], as a count of microseconds. *)
Definition datetime := Z.

(** The address of a dictionary object on the heap. *)
Definition loc := nat.

(** Modelled from the spec: the class [DateRange] of [search/utils.py],
    which is not among the sources. The spec describes it as a value with a
    lower and an upper bound, each a timestamp or absent, that the module
    only constructs, as [DateRange(lower, upper)], and passes on. *)
Record date_range : Type := DateRange {
  lower : option datetime;
  upper : option datetime
}.

(** The values that the module handles. A dictionary that is mutated in
    place is held by reference; every other value is immutable. *)
#[local] Set Warnings "-register-all".
Inductive value : Type :=
  | VNone
  | VBool (b : bool)
  | VInt (z : Z)
  | VStr (s : string)
  | VDateRange (range : date_range)
  | VList (items : list value)
  | VRef (l : loc).

(** A Python [dict] with string keys. *)
Abbreviation dict := (gmap string value).

(** The heap of dictionary objects that are shared and mutated in place. *)
Abbreviation heap := (gmap loc (gmap string value)).

(** [v == s] for a string literal [s]: only a [str] with the same characters
    compares equal. *)
Definition py_eq_str (v : value) (s : string) : bool :=
  match v with
  | VStr s' => bool_decide (s' = s)
  | _ => false
  end.

(** [v is None]. *)
Definition is_none (v : value) : bool :=
  match v with
  | VNone => true
  | _ => false
  end.

(** ** [str.split()] without arguments

    Strings are sequences of code points below 256. [isspace] lists the code
    points below 256 that Python 3 treats as whitespace. *)
Definition isspace (c : ascii) : bool :=
  let n := nat_of_ascii c in
  bool_decide (n ∈ [9; 10; 11; 12; 13; 28; 29; 30; 31; 32; 133; 160]%nat).

(** [split_from tok s]: the tokens of [s], where [tok] holds the characters of
    the token being read. Runs of whitespace separate tokens and produce no
    empty token. *)
Fixpoint split_from (tok : string) (s : string) : list string :=
  match s with
  | EmptyString => if bool_decide (tok = EmptyString) then [] else [tok]
  | String c rest =>
      if isspace c
      then (if bool_decide (tok = EmptyString)
            then split_from EmptyString rest
            else tok :: split_from EmptyString rest)
      else split_from (String.append tok (String c EmptyString)) rest
  end.

Definition split (s : string) : list string := split_from EmptyString s.

(** ** Exceptions, outcomes and the world *)

(** [NoSearchEngineError] is the module's own exception. [AttributeError],
    [KeyError] and [TypeError] are the built-in ones that the modelled
    statements can raise. [CollaboratorError] stands for whatever an engine
    or the result processor raises. [DanglingReference] is no Python
    exception: it marks a reference to an object that the heap does not
    hold, which no Python program can have. *)
Inductive exn : Type :=
  | NoSearchEngineError (msg : string)
  | AttributeError
  | KeyError (key : string)
  | TypeError
  | CollaboratorError (detail : string)
  | DanglingReference.

Inductive outcome (A : Type) : Type :=
  | Ok (a : A)
  | Raise (e : exn).
Arguments Ok {A} a.
Arguments Raise {A} e.

(** Calls that leave the module, in the order they happen. *)
Inductive event : Type :=
  | CallGenerateFieldFilters (kwargs : list (string * value))
  | CallGetSearchEngine (index : string)
  | CallSearchString (search_term : value)
      (field_dictionary filter_dictionary exclude_dictionary : dict)
      (size from_ : value)
  | CallSearch (query_string size from_ : value)
      (field_dictionary filter_dictionary exclude_dictionary : dict)
      (aggregation_terms : gmap string dict)
  | CallProcessResult (data search_term user : value)
  | CallUtcnow (t : datetime).

(** The clock is an input sequence: the [n]-th call of [datetime.utcnow()]
    returns [clock n]. *)
Record world : Type := World {
  clock : nat → datetime;
  clock_reads : nat;
  objects : heap;
  trace : list event
}.

Definition M (A : Type) : Type := world → outcome A * world.

Definition ret {A} (a : A) : M A := λ w, (Ok a, w).

Definition bind {A B} (m : M A) (k : A → M B) : M B :=
  λ w, match m w with
       | (Ok a, w') => k a w'
       | (Raise e, w') => (Raise e, w')
       end.

Definition raise {A} (e : exn) : M A := λ w, (Raise e, w).

Declare Scope py_scope.
Delimit Scope py_scope with py.
Notation "x <~ c ;; k" := (bind c (λ x, k))
  (at level 100, c at next level, right associativity) : py_scope.
Notation "c ;;; k" := (bind c (λ _, k))
  (at level 100, right associativity) : py_scope.
Open Scope py_scope.

Definition log_call (e : event) : M unit :=
  λ w, (Ok tt, World (clock w) (clock_reads w) (objects w) (trace w ++ [e])).

(** [datetime.utcnow()] *)
Definition utcnow : M datetime :=
  λ w, let t := clock w (clock_reads w) in
       (Ok t, World (clock w) (S (clock_reads w)) (objects w)
                    (trace w ++ [CallUtcnow t])).

(** [d[k]] *)
Definition getitem (d : dict) (k : string) : M value :=
  match d !! k with
  | Some v => ret v
  | None => raise (KeyError k)
  end.

(** The dictionary object behind a reference. *)
Definition deref (l : loc) : M dict :=
  λ w, match objects w !! l with
       | Some d => (Ok d, w)
       | None => (Raise DanglingReference, w)
       end.

(** [r[k] = v] on the dictionary object at [l]. *)
Definition setitem (l : loc) (k : string) (v : value) : M unit :=
  λ w, match objects w !! l with
       | Some d => (Ok tt, World (clock w) (clock_reads w)
                                 (<[l := <[k := v]> d]> (objects w)) (trace w))
       | None => (Raise DanglingReference, w)
       end.

(** ** Configuration and collaborators *)

(** The attributes of [django.conf.settings] that the module reads; [None]
    is an attribute that is not set, so that [getattr] takes its default. *)
Record settings : Type := Settings {
  COURSE_DISCOVERY_FILTERS : option (list string);
  COURSE_DISCOVERY_AGGREGATIONS : option (gmap string dict);
  COURSEWARE_CONTENT_INDEX_NAME : option string;
  COURSEWARE_INFO_INDEX_NAME : option string;
  SEARCH_SKIP_ENROLLMENT_START_DATE_FILTERING : option bool
}.

(** [getattr(settings, name, default)] *)
Definition getattr {A} (attribute : option A) (default : A) : A :=
  match attribute with
  | Some a => a
  | None => default
  end.

(** A search engine instance. Both operations return the response
    dictionary, whose ["results"] entry lists references to the hit
    dictionaries they put on the heap, or fail. *)
Record engine : Type := Engine {
  search_string :
    value → dict → dict → dict → value → value →
    heap → outcome dict * heap;
  search :
    value → value → value → dict → dict → dict →
    gmap string dict → heap → outcome dict * heap
}.

(** The three classes the module imports, by the class methods it calls.
    The filter generator and the engine lookup are taken to return; the
    engines and the result processor return or raise. *)
Record collaborators : Type := Collaborators {
  generate_field_filters : list (string * value) → dict * dict * dict;
  get_search_engine : string → option engine;
  process_result : value → value → value → outcome value
}.

Definition DEFAULT_FILTER_FIELDS : list string := ["org"; "modes"; "language"].

Section Api.

Context (django : settings) (ext : collaborators).

Definition course_discovery_filter_fields : list string :=
  getattr (COURSE_DISCOVERY_FILTERS django) DEFAULT_FILTER_FIELDS.

(** [{field: {} for field in course_discovery_filter_fields()}] unless the
    setting is present. *)
Definition course_discovery_aggregations : gmap string dict :=
  getattr (COURSE_DISCOVERY_AGGREGATIONS django)
    (foldl (λ acc field, <[field := ∅]> acc) ∅
       course_discovery_filter_fields).

(** *** Calls to the collaborators, recorded in the trace *)

Definition call_generate_field_filters (kwargs : list (string * value))
  : M (dict * dict * dict) :=
  log_call (CallGenerateFieldFilters kwargs) ;;;
  ret (generate_field_filters ext kwargs).

Definition call_get_search_engine (index : string) : M (option engine) :=
  log_call (CallGetSearchEngine index) ;;;
  ret (get_search_engine ext index).

Definition call_process_result (data search_term user : value) : M value :=
  log_call (CallProcessResult data search_term user) ;;;
  match process_result ext data search_term user with
  | Ok v => ret v
  | Raise e => raise e
  end.

Definition call_search_string (searcher : engine) (search_term : value)
    (field_dictionary filter_dictionary exclude_dictionary : dict)
    (size from_ : value) : M dict :=
  log_call (CallSearchString search_term field_dictionary filter_dictionary
              exclude_dictionary size from_) ;;;
  λ w, let '(r, h) := search_string searcher search_term field_dictionary
                        filter_dictionary exclude_dictionary size from_
                        (objects w) in
       (r, World (clock w) (clock_reads w) h (trace w)).

Definition call_search (searcher : engine) (query_string size from_ : value)
    (field_dictionary filter_dictionary exclude_dictionary : dict)
    (aggregation_terms : gmap string dict) : M dict :=
  log_call (CallSearch query_string size from_ field_dictionary
              filter_dictionary exclude_dictionary aggregation_terms) ;;;
  λ w, let '(r, h) := search searcher query_string size from_
                        field_dictionary filter_dictionary exclude_dictionary
                        aggregation_terms (objects w) in
       (r, World (clock w) (clock_reads w) h (trace w)).

(** *** [perform_search] *)

(** [for result in results["results"]:
       result["data"] = SearchResultProcessor.process_result(
           result["data"], search_term, user)] *)
Fixpoint process_each (search_term user : value) (hits : list value)
  : M unit :=
  match hits with
  | [] => ret tt
  | VRef result :: rest =>
      hit <~ deref result ;;
      data <~ getitem hit "data" ;;
      data' <~ call_process_result data search_term user ;;
      setitem result "data" data' ;;;
      process_each search_term user rest
  | _ :: _ => raise TypeError
  end.

(** [r["data"]] for an element [r] of the hit list. *)
Definition hit_data (r : value) : M value :=
  match r with
  | VRef l => hit <~ deref l ;; getitem hit "data"
  | _ => raise TypeError
  end.

(** [[r for r in hits if r["data"] is None]] when [want_none], and
    [[r for r in hits if r["data"] is not None]] otherwise. *)
Fixpoint select_hits (want_none : bool) (hits : list value)
  : M (list value) :=
  match hits with
  | [] => ret []
  | r :: rest =>
      data <~ hit_data r ;;
      selected <~ select_hits want_none rest ;;
      ret (if bool_decide (is_none data = want_none)
           then r :: selected else selected)
  end.

(** The elements that [for ... in v] visits. The engines answer with a list
    under ["results"]; other iterables are not modelled and stop the run
    with [TypeError], as [None] and numbers do in Python. *)
Definition as_list (v : value) : M (list value) :=
  match v with
  | VList items => ret items
  | _ => raise TypeError
  end.

(** The part of [perform_search] under [# post-process the result]. *)
Definition post_process (search_term user : value) (results : dict)
  : M dict :=
  listed <~ getitem results "results" ;;
  hits <~ as_list listed ;;
  process_each search_term user hits ;;;
  listed <~ getitem results "results" ;;
  hits <~ as_list listed ;;
  denied <~ select_hits true hits ;;
  let results :=
    <["access_denied_count" := VInt (Z.of_nat (length denied))]> results in
  listed <~ getitem results "results" ;;
  hits <~ as_list listed ;;
  visible <~ select_hits false hits ;;
  let results := <["results" := VList visible]> results in
  ret results.

(** [perform_search(search_term, user, size, from_, course_id)] *)
Definition perform_search (search_term user size from_ course_id : value)
  : M dict :=
  generated <~ call_generate_field_filters
                 [("user", user); ("course_id", course_id)] ;;
  let '(field_dictionary, filter_dictionary, exclude_dictionary) :=
    generated in
  searcher <~ call_get_search_engine
                (getattr (COURSEWARE_CONTENT_INDEX_NAME django)
                         "courseware_content") ;;
  match searcher with
  | None =>
      raise (NoSearchEngineError
               "No search engine specified in settings.SEARCH_ENGINE")
  | Some searcher =>
      results <~ call_search_string searcher search_term field_dictionary
                   filter_dictionary exclude_dictionary size from_ ;;
      post_process search_term user results
  end.

(** *** [course_discovery_search] *)

(** [status_value.split()]: only a [str] has the method. *)
Definition str_split (v : value) : M (list string) :=
  match v with
  | VStr s => ret (split s)
  | _ => raise AttributeError
  end.

(** The [if]/[elif]/[elif] chain on [status_value]: the date constraints
    of the three statuses that have one. *)
Definition status_dates (today : datetime) (status_value : value)
    (use_field_dictionary : dict) : dict :=
  if py_eq_str status_value "ongoing" then
    <["end" := VDateRange (DateRange (Some today) None)]>
      (<["start" := VDateRange (DateRange None (Some today))]>
         use_field_dictionary)
  else if py_eq_str status_value "upcoming" then
    <["start" := VDateRange (DateRange (Some today) None)]> use_field_dictionary
  else if py_eq_str status_value "finished" then
    <["end" := VDateRange (DateRange None (Some today))]> use_field_dictionary
  else use_field_dictionary.

(** [status_value == "invitation_only" or
     'invitation_only' in status_value.split()] *)
Definition wants_invitation_only (status_value : value) : M bool :=
  if py_eq_str status_value "invitation_only" then ret true
  else tokens <~ str_split status_value ;;
       ret (bool_decide ("invitation_only" ∈ tokens)).

(** The body of [if "estatus" in use_field_dictionary:], entered with the
    value that [use_field_dictionary.pop("estatus")] returns. *)
Definition derive_status (today : datetime) (status_value : value)
    (use_field_dictionary exclude_dictionary : dict) : M (dict * dict) :=
  let use_field_dictionary := delete "estatus" use_field_dictionary in
  let exclude_dictionary :=
    <["invitation_only" := VBool false]> exclude_dictionary in
  let use_field_dictionary :=
    status_dates today status_value use_field_dictionary in
  invitation <~ wants_invitation_only status_value ;;
  let use_field_dictionary :=
    if (invitation : bool)
    then <["invitation_only" := VBool true]> use_field_dictionary
    else use_field_dictionary in
  ret (use_field_dictionary, exclude_dictionary).

(** [use_field_dictionary.update(field_dictionary)] under
    [if field_dictionary:]; the argument is [None] or a dictionary, and an
    empty dictionary is falsy. *)
Definition merge_overrides (use_field_dictionary : dict)
    (field_dictionary : option dict) : dict :=
  match field_dictionary with
  | Some overrides =>
      if bool_decide (size overrides ≠ 0%nat)
      then overrides ∪ use_field_dictionary
      else use_field_dictionary
  | None => use_field_dictionary
  end.

(** [course_discovery_search(search_term, size, from_, field_dictionary)] *)
Definition course_discovery_search (search_term size from_ : value)
    (field_dictionary : option dict) : M dict :=
  let use_search_fields := ["org"] in
  generated <~ call_generate_field_filters [] ;;
  let '(search_fields, _, exclude_dictionary) := generated in
  let use_field_dictionary :=
    filter (λ kv : string * value, kv.1 ∈ use_search_fields) search_fields in
  let use_field_dictionary :=
    merge_overrides use_field_dictionary field_dictionary in
  today <~ utcnow ;;
  derived <~ match use_field_dictionary !! "estatus" with
             | Some status_value =>
                 derive_status today status_value use_field_dictionary
                   exclude_dictionary
             | None => ret (use_field_dictionary, exclude_dictionary)
             end ;;
  let '(use_field_dictionary, exclude_dictionary) := derived in
  use_field_dictionary <~
    (if negb (getattr (SEARCH_SKIP_ENROLLMENT_START_DATE_FILTERING django)
                      false)
     then now <~ utcnow ;;
          ret (<["enrollment_start" := VDateRange (DateRange None (Some now))]>
                 use_field_dictionary)
     else ret use_field_dictionary) ;;
  searcher <~ call_get_search_engine
                (getattr (COURSEWARE_INFO_INDEX_NAME django) "course_info") ;;
  match searcher with
  | None =>
      raise (NoSearchEngineError
               "No search engine specified in settings.SEARCH_ENGINE")
  | Some searcher =>
      now <~ utcnow ;;
      call_search searcher search_term size from_ use_field_dictionary
        {["enrollment_end" := VDateRange (DateRange (Some now) None)]}
        exclude_dictionary course_discovery_aggregations
  end.

End Api.

(** ** Concrete configurations and collaborators, for evaluation *)

Module Demo.

(** No attribute set: every [getattr] takes its default. *)
Definition defaults : settings := Settings None None None None None.

(** As [defaults], with the enrollment start filter switched off. *)
Definition skipping : settings := Settings None None None None (Some true).

(** An engine that answers every query with an empty hit list. *)
Definition quiet : engine :=
  Engine (λ _ _ _ _ _ _ h, (Ok {["results" := VList []]}, h))
         (λ _ _ _ _ _ _ _ h, (Ok {["results" := VList []]}, h)).

(** A processor that hides the payload ["secret"] and keeps the rest. *)
Definition hide_secret (data search_term user : value) : outcome value :=
  if py_eq_str data "secret" then Ok VNone else Ok data.

(** A filter generator that restricts an organisation and a course; every
    index resolves to the [quiet] engine. *)
Definition services : collaborators :=
  Collaborators
    (λ _, ({["org" := VStr "edX"; "course" := VStr "c1"]}, ∅, ∅))
    (λ _, Some quiet)
    hide_secret.

(** The same without any engine configured. *)
Definition no_engine : collaborators :=
  Collaborators
    (λ _, ({["org" := VStr "edX"; "course" := VStr "c1"]}, ∅, ∅))
    (λ _, None)
    hide_secret.

(** A clock that advances by one between two readings, from 100. *)
Definition ticking : nat → datetime := λ n, 100 + Z.of_nat n.

Definition start : world := World ticking 0 ∅ [].

(** Three hit objects, the second with the payload that [hide_secret]
    hides, and the response of an engine that lists them. *)
Definition shelf : heap :=
  {[ 0%nat := {["data" := VStr "intro"; "score" := VInt 3]};
     1%nat := {["data" := VStr "secret"; "score" := VInt 2]};
     2%nat := {["data" := VStr "outro"; "score" := VInt 1]} ]}.

Definition found : list value := [VRef 0%nat; VRef 1%nat; VRef 2%nat].

Definition response : dict :=
  {["results" := VList found; "total" := VInt 3]}.

Definition stocked : world := World ticking 0 shelf [].

(** The post-processing of [response] over [stocked]. *)
Definition sifted : outcome dict * world :=
  post_process services (VStr "term") (VStr "ann") response stocked.

(** Caller overrides that ask for a status. *)
Definition with_status (s : string) : option dict :=
  Some {["estatus" := VStr s]}.

(** [course_discovery_search(field_dictionary=overrides)] from [start], with
    the other arguments at their defaults. *)
Definition discover (django : settings) (ext : collaborators)
    (overrides : option dict) : outcome dict * world :=
  course_discovery_search django ext VNone (VInt 20) (VInt 0) overrides start.

End Demo.

(** * Terms in which the properties are stated *)

(** ** What the heap holds for a hit *)

(** The payload stored under ["data"] in the object an element of the hit
    list refers to, if there is one. *)
Definition stored_data (h : heap) (r : value) : option value :=
  match r with
  | VRef l => h !! l ≫= λ hit, hit !! "data"
  | _ => None
  end.

(** The test of the two list comprehensions on an element:
    [r["data"] is None] when [want_none], [r["data"] is not None]
    otherwise. *)
Definition selected_in (h : heap) (want_none : bool) (r : value) : bool :=
  match stored_data h r with
  | Some data => bool_decide (is_none data = want_none)
  | None => false
  end.

Definition denied_in (h : heap) : value → bool := selected_in h true.
Definition visible_in (h : heap) : value → bool := selected_in h false.

(** The world after one turn of the loop on the object at [l]. *)
Definition after_turn (w : world) (l : loc) (hit : dict)
    (data data' search_term user : value) : world :=
  World (clock w) (clock_reads w)
        (<[l := <["data" := data']> hit]> (objects w))
        (trace w ++ [CallProcessResult data search_term user]).

(** The response that [post_process] returns over the heap [h]. *)
Definition processed (h : heap) (results : dict) (hits : list value) : dict :=
  <["results" := VList (filter (visible_in h) hits)]>
    (<["access_denied_count" :=
         VInt (Z.of_nat (length (filter (denied_in h) hits)))]> results).


(** ** What [course_discovery_search] hands to the engine *)

(** The calls made between two worlds. *)
Definition calls_during (w w' : world) : list event :=
  drop (length (trace w)) (trace w').

(** Between [w] and [w'] the engine's [search] was called with these field,
    filter and exclude dictionaries. *)
Definition passed_to_engine (w w' : world)
    (field_dictionary filter_dictionary exclude_dictionary : dict) : Prop :=
  ∃ query_string size from_ aggregation_terms,
    CallSearch query_string size from_ field_dictionary filter_dictionary
      exclude_dictionary aggregation_terms ∈ calls_during w w'.

(** What the status derivation leaves of the working dictionary [fields]
    when the status value is the string [s]. *)
Definition derived_fields (today : datetime) (s : string) (fields : dict)
  : dict :=
  let dated := status_dates today (VStr s) (delete "estatus" fields) in
  if bool_decide ("invitation_only" ∈ split s)
  then <["invitation_only" := VBool true]> dated
  else dated.

(** A world, to run world-independent code in. *)
Definition idle : world := World (λ _, 0) 0%nat ∅ [].

Section DiscoveryTerms.

Context (django : settings) (ext : collaborators).
Context (search_term size from_ : value) (field_dictionary : option dict).

(** The seeded dictionary: the generator's fields under the allowed keys. *)
Definition seeded : dict :=
  filter (λ kv : string * value, kv.1 ∈ ["org"])
         (generate_field_filters ext []).1.1.

(** The working dictionary after the caller's overrides are merged in. *)
Definition merged : dict := merge_overrides seeded field_dictionary.

(** The generator's exclude dictionary. *)
Definition default_exclude : dict := (generate_field_filters ext []).2.

Definition skips : bool :=
  getattr (SEARCH_SKIP_ENROLLMENT_START_DATE_FILTERING django) false.

Definition info_index : string :=
  getattr (COURSEWARE_INFO_INDEX_NAME django) "course_info".

(** The status derivation, entered at time [today], ends with the working
    dictionary [fields] and the exclude dictionary [exclude]. *)
Definition status_step (today : datetime) (fields exclude : dict) : Prop :=
  match merged !! "estatus" with
  | Some status_value =>
      ∀ w, derive_status today status_value merged default_exclude w
           = (Ok (fields, exclude), w)
  | None => fields = merged ∧ exclude = default_exclude
  end.

(** The clock reading that the enrollment end filter takes. *)
Definition end_reading (w : world) : nat :=
  if skips then S (clock_reads w) else S (S (clock_reads w)).

Definition engine_fields (w : world) (fields : dict) : dict :=
  if skips then fields
  else <["enrollment_start" :=
           VDateRange (DateRange None (Some (clock w (S (clock_reads w)))))]>
         fields.

Definition engine_filters (w : world) : dict :=
  {["enrollment_end" :=
      VDateRange (DateRange (Some (clock w (end_reading w))) None)]}.

(** The number of clock readings of a call that gets to the engine. *)
Definition readings_taken : nat := if skips then 2 else 3.

(** The same world with another clock. *)
Definition with_clock (c : nat → datetime) (w : world) : world :=
  World c (clock_reads w) (objects w) (trace w).

(** The calls up to the resolution of the engine. *)
Definition calls_before_search (w : world) : list event :=
  [CallGenerateFieldFilters []; CallUtcnow (clock w (clock_reads w))]
  ++ (if skips then [] else [CallUtcnow (clock w (S (clock_reads w)))])
  ++ [CallGetSearchEngine info_index].

Definition search_call (w : world) (fields exclude : dict) : event :=
  CallSearch search_term size from_ (engine_fields w fields)
    (engine_filters w) exclude (course_discovery_aggregations django).

End DiscoveryTerms.

(** ** Kinds of calls *)

(** A call of the result processor. *)
Definition is_processor_call (e : event) : bool :=
  match e with
  | CallProcessResult _ _ _ => true
  | _ => false
  end.

(** A call of an engine's term search, [search_string]. *)
Definition is_term_search (e : event) : bool :=
  match e with
  | CallSearchString _ _ _ _ _ _ => true
  | _ => false
  end.

(** A call of an engine's full query, [search]. *)
Definition is_full_search (e : event) : bool :=
  match e with
  | CallSearch _ _ _ _ _ _ _ => true
  | _ => false
  end.

(** The calls of the result processor on the payloads [datas], in order,
    for one search term and one user. *)
Definition processor_calls (search_term user : value) (datas : list value)
  : list event :=
  (λ data, CallProcessResult data search_term user) <$> datas.

(** ** More collaborators to evaluate on *)

Module Library.

(** An engine whose term search puts the hits of [Demo.shelf] on the heap
    and lists them, and whose full query finds nothing. *)
Definition librarian : engine :=
  Engine (λ _ _ _ _ _ _ h, (Ok Demo.response, Demo.shelf ∪ h))
         (λ _ _ _ _ _ _ _ h, (Ok {["results" := VList []]}, h)).

(** An engine that is down. *)
Definition broken : engine :=
  Engine (λ _ _ _ _ _ _ h, (Raise (CollaboratorError "timeout"), h))
         (λ _ _ _ _ _ _ _ h, (Raise (CollaboratorError "timeout"), h)).

(** A processor that fails on the payload ["secret"]. *)
Definition strict (data search_term user : value) : outcome value :=
  if py_eq_str data "secret" then Raise (CollaboratorError "forbidden")
  else Ok data.

(** A filter generator that restricts a course, filters on publication and
    excludes drafts, whatever it is asked. *)
Definition generator (kwargs : list (string * value)) : dict * dict * dict :=
  ({["course" := VStr "c1"]}, {["published" := VBool true]},
   {["draft" := VBool true]}).

Definition services : collaborators :=
  Collaborators generator (λ _, Some librarian) Demo.hide_secret.

Definition strict_services : collaborators :=
  Collaborators generator (λ _, Some librarian) strict.

Definition broken_services : collaborators :=
  Collaborators generator (λ _, Some broken) Demo.hide_secret.

(** [perform_search("term", user="ann", course_id="c1")] on an empty heap. *)
Definition search_for (ext : collaborators) : outcome dict * world :=
  perform_search Demo.defaults ext (VStr "term") (VStr "ann") (VInt 10)
    (VInt 0) (VStr "c1") Demo.start.

End Library.

(** ** Status values made of tokens *)

(** No character of the string is whitespace. *)
Fixpoint no_space (s : string) : bool :=
  match s with
  | EmptyString => true
  | String c rest => negb (isspace c) && no_space rest
  end.

(** A token: a string that is not empty and has no whitespace. *)
Definition is_token (s : string) : bool :=
  negb (bool_decide (s = EmptyString)) && no_space s.

(** [" ".join(tokens)] *)
Fixpoint join_spaces (tokens : list string) : string :=
  match tokens with
  | [] => EmptyString
  | t :: rest =>
      match rest with
      | [] => t
      | _ :: _ => String.append t (String " " (join_spaces rest))
      end
  end.

(** * Tactics *)

(** Runs [course_discovery_search] up to its status derivation: the call of
    the filter generator, the seeding, the merge of the overrides and the
    first reading of the clock. *)
Ltac start_discovery django ext field_dictionary :=
  unfold course_discovery_search, call_generate_field_filters,
    call_get_search_engine;
  fold (info_index django); fold (skips django);
  let search_fields := fresh "search_fields" in
  let exclude0 := fresh "exclude0" in
  let Hgen := fresh "Hgen" in
  let Hseed := fresh "Hseed" in
  destruct (generate_field_filters ext [])
    as [[search_fields ?] exclude0] eqn:Hgen;
  assert (Hseed : filter (λ kv : string * value, kv.1 ∈ ["org"])
                    search_fields = seeded ext)
    by (unfold seeded; by rewrite Hgen);
  assert (exclude0 = default_exclude ext) as ->
    by (unfold default_exclude; by rewrite Hgen);
  unfold bind at 1; unfold bind at 1; unfold log_call at 1; unfold ret at 1;
  rewrite Hseed; fold (merged ext field_dictionary);
  unfold bind at 1; unfold utcnow at 1; cbn [clock clock_reads objects trace];
  unfold bind at 1.

(** Checks that the engine call is the [n]-th call of an evaluated run. *)
Ltac engine_saw_at n :=
  eexists _, _, _, _; apply (list_elem_of_lookup_2 _ n);
  vm_compute; reflexivity.

(** Non-membership in a list of strings, by evaluation. *)
Ltac not_listed := apply (bool_decide_unpack _); vm_compute; exact I.

(** Finds the engine call among the calls of an evaluated run. *)
Ltac engine_saw :=
  eexists _, _, _, _; vm_compute; repeat constructor.

(** * Evaluation on concrete inputs *)

(** [split_example]: runs of whitespace separate tokens.
    [discovery_trace_example]: the calls of one discovery search, in order.
    [shared_hit_example]: a hit object that is listed twice is processed
    twice, in place, the second time on the result of the first. *)

Example shared_hit_example :
  let twice := [VRef 1%nat; VRef 1%nat] in
  let flip := Collaborators (λ _, (∅, ∅, ∅)) (λ _, None)
                (λ data _ _, if is_none data then Ok (VStr "back")
                             else Ok VNone) in
  (post_process flip VNone VNone {["results" := VList twice]}
     Demo.stocked).1
  = Ok {["access_denied_count" := VInt 0; "results" := VList twice]}.
Proof. vm_compute. reflexivity. Qed.

Example split_example :
  split "  ongoing   invitation_only " = ["ongoing"; "invitation_only"].
Proof. reflexivity. Qed.

Example discovery_trace_example :
  trace (course_discovery_search Demo.defaults Demo.services VNone (VInt 20)
           (VInt 0) (Some {["estatus" := VStr "ongoing"]}) Demo.start).2
  = [CallGenerateFieldFilters [];
     CallUtcnow 100;
     CallUtcnow 101;
     CallGetSearchEngine "course_info";
     CallUtcnow 102;
     CallSearch VNone (VInt 20) (VInt 0)
       (<["enrollment_start" := VDateRange (DateRange None (Some 101))]>
          (<["end" := VDateRange (DateRange (Some 100) None)]>
             (<["start" := VDateRange (DateRange None (Some 100))]>
                {["org" := VStr "edX"]})))
       {["enrollment_end" := VDateRange (DateRange (Some 102) None)]}
       {["invitation_only" := VBool false]}
       (<["org" := ∅]> (<["modes" := ∅]> (<["language" := ∅]> ∅)))].
Proof. vm_compute. reflexivity. Qed.

(** * Proofs *)

(** ** Running monadic code *)


Lemma bind_ok {A B} (m : M A) (k : A → M B) w a w1 :
  m w = (Ok a, w1) → bind m k w = k a w1.
Proof. intros H. unfold bind. by rewrite H. Qed.

Lemma bind_raise {A B} (m : M A) (k : A → M B) w e w1 :
  m w = (Raise e, w1) → bind m k w = (Raise e, w1).
Proof. intros H. unfold bind. by rewrite H. Qed.

Lemma bind_ok_inv {A B} (m : M A) (k : A → M B) w b w' :
  bind m k w = (Ok b, w') →
  ∃ a w1, m w = (Ok a, w1) ∧ k a w1 = (Ok b, w').
Proof.
  unfold bind. destruct (m w) as [[a|e] w1]; intros H.
  - by exists a, w1.
  - discriminate.
Qed.

Section PostProcessing.

Context (ext : collaborators) (search_term user : value).

Lemma hit_data_ok r w data :
  stored_data (objects w) r = Some data → hit_data r w = (Ok data, w).
Proof.
  destruct r as [| | | | | |l]; simpl; try done.
  unfold bind, deref, getitem.
  destruct (objects w !! l) as [hit|]; simpl; [|done].
  intros ->. done.
Qed.

Lemma process_each_cons_inv l rest w w' :
  process_each ext search_term user (VRef l :: rest) w = (Ok tt, w') →
  ∃ hit data data',
    objects w !! l = Some hit ∧ hit !! "data" = Some data ∧
    process_result ext data search_term user = Ok data' ∧
    process_each ext search_term user rest
      (after_turn w l hit data data' search_term user) = (Ok tt, w').
Proof.
  simpl. unfold bind at 1. unfold deref.
  destruct (objects w !! l) as [hit|] eqn:Hl; [|done].
  unfold bind at 1. unfold getitem.
  destruct (hit !! "data") as [data|] eqn:Hd; [|done].
  unfold ret at 1. unfold bind at 1.
  unfold call_process_result, bind at 1, log_call.
  destruct (process_result ext data search_term user) as [data'|e] eqn:Hp;
    [|done].
  unfold ret at 1. unfold bind at 1, setitem. simpl. rewrite Hl.
  intros H. exists hit, data, data'. by repeat split.
Qed.

Lemma process_each_cons_run l rest w hit data data' :
  objects w !! l = Some hit → hit !! "data" = Some data →
  process_result ext data search_term user = Ok data' →
  process_each ext search_term user (VRef l :: rest) w =
  process_each ext search_term user rest
    (after_turn w l hit data data' search_term user).
Proof.
  intros Hl Hd Hp. simpl. unfold bind at 1. unfold deref. rewrite Hl.
  unfold bind at 1. unfold getitem. rewrite Hd.
  unfold ret at 1. unfold bind at 1.
  unfold call_process_result, bind at 1, log_call. rewrite Hp.
  unfold ret at 1. unfold bind at 1, setitem. simpl. by rewrite Hl.
Qed.

Lemma process_each_not_ref_inv r rest w w' :
  process_each ext search_term user (r :: rest) w = (Ok tt, w') →
  ∃ l, r = VRef l.
Proof. destruct r; try done. eauto. Qed.

(** One turn of the loop on [l] leaves the other objects alone and gives
    [l] the new payload. *)
Lemma stored_data_after_turn_same w l hit data data' :
  stored_data (objects (after_turn w l hit data data' search_term user))
    (VRef l) = Some data'.
Proof. simpl. rewrite lookup_insert_eq. simpl. by rewrite lookup_insert_eq. Qed.

Lemma stored_data_after_turn_other w l hit data data' r :
  r ≠ VRef l →
  stored_data (objects (after_turn w l hit data data' search_term user)) r
  = stored_data (objects w) r.
Proof.
  intros Hne. destruct r as [| | | | | |l0]; try done. simpl.
  rewrite lookup_insert_ne; [done|]. congruence.
Qed.

Lemma value_ref_dec (r : value) (l : loc) : {r = VRef l} + {r ≠ VRef l}.
Proof.
  destruct r as [| | | | | |l0]; try (right; discriminate).
  destruct (decide (l0 = l)) as [->|Hne]; [by left|right; congruence].
Qed.

(** The loop reads no clock. *)
Lemma process_each_clock hits : ∀ w w',
  process_each ext search_term user hits w = (Ok tt, w') →
  clock w' = clock w ∧ clock_reads w' = clock_reads w.
Proof.
  induction hits as [|r rest IH]; intros w w' H.
  - by inversion H.
  - destruct (process_each_not_ref_inv _ _ _ _ H) as [l ->].
    destruct (process_each_cons_inv _ _ _ _ H)
      as (hit & data & data' & _ & _ & _ & Hrest).
    by destruct (IH _ _ Hrest).
Qed.

(** An element that has a payload before the loop has one after it. *)
Lemma process_each_keeps_data hits : ∀ w w' r,
  process_each ext search_term user hits w = (Ok tt, w') →
  is_Some (stored_data (objects w) r) →
  is_Some (stored_data (objects w') r).
Proof.
  induction hits as [|r0 rest IH]; intros w w' r H Hr.
  - by inversion H; subst.
  - destruct (process_each_not_ref_inv _ _ _ _ H) as [l ->].
    destruct (process_each_cons_inv _ _ _ _ H)
      as (hit & data & data' & _ & _ & _ & Hrest).
    apply (IH _ _ _ Hrest).
    destruct (value_ref_dec r l) as [->|Hne].
    + rewrite stored_data_after_turn_same. eauto.
    + by rewrite stored_data_after_turn_other.
Qed.

(** After the loop every element of the list has a payload. *)
Lemma process_each_all_data hits : ∀ w w',
  process_each ext search_term user hits w = (Ok tt, w') →
  ∀ r, r ∈ hits → is_Some (stored_data (objects w') r).
Proof.
  induction hits as [|r0 rest IH]; intros w w' H r Hin.
  - by apply elem_of_nil in Hin.
  - destruct (process_each_not_ref_inv _ _ _ _ H) as [l ->].
    destruct (process_each_cons_inv _ _ _ _ H)
      as (hit & data & data' & _ & _ & _ & Hrest).
    apply elem_of_cons in Hin as [->|Hin].
    + apply (process_each_keeps_data _ _ _ _ Hrest).
      rewrite stored_data_after_turn_same. eauto.
    + by apply (IH _ _ Hrest).
Qed.

(** A payload that the processor returns unchanged stays in place, however
    often its object is listed. *)
Lemma process_each_fixed hits : ∀ w w' r data,
  process_each ext search_term user hits w = (Ok tt, w') →
  stored_data (objects w) r = Some data →
  process_result ext data search_term user = Ok data →
  stored_data (objects w') r = Some data.
Proof.
  induction hits as [|r0 rest IH]; intros w w' r data H Hr Hfix.
  - by inversion H; subst.
  - destruct (process_each_not_ref_inv _ _ _ _ H) as [l ->].
    destruct (process_each_cons_inv _ _ _ _ H)
      as (hit & data0 & data' & Hl & Hd & Hp & Hrest).
    apply (IH _ _ _ _ Hrest); [|done].
    destruct (value_ref_dec r l) as [->|Hne].
    + rewrite stored_data_after_turn_same.
      simpl in Hr. rewrite Hl in Hr. simpl in Hr. congruence.
    + by rewrite stored_data_after_turn_other.
Qed.

(** The loop does not touch an object that is not listed. *)
Lemma process_each_untouched hits : ∀ w w' r,
  process_each ext search_term user hits w = (Ok tt, w') →
  r ∉ hits →
  stored_data (objects w') r = stored_data (objects w) r.
Proof.
  induction hits as [|r0 rest IH]; intros w w' r H Hnotin.
  - by inversion H; subst.
  - destruct (process_each_not_ref_inv _ _ _ _ H) as [l ->].
    destruct (process_each_cons_inv _ _ _ _ H)
      as (hit & data0 & data' & Hl & Hd & Hp & Hrest).
    apply not_elem_of_cons in Hnotin as [Hne Hnotin].
    rewrite (IH _ _ _ Hrest Hnotin).
    by apply stored_data_after_turn_other.
Qed.

(** The loop over a list in two parts is the loop over the first part
    followed by the loop over the second. *)
Lemma process_each_app_inv front : ∀ back w w',
  process_each ext search_term user (front ++ back) w = (Ok tt, w') →
  ∃ w1, process_each ext search_term user front w = (Ok tt, w1) ∧
        process_each ext search_term user back w1 = (Ok tt, w').
Proof.
  induction front as [|r0 rest IH]; intros back w w' H.
  - by exists w.
  - rewrite <- app_comm_cons in H.
    destruct (process_each_not_ref_inv _ _ _ _ H) as [l ->].
    destruct (process_each_cons_inv _ _ _ _ H)
      as (hit & data & data' & Hl & Hd & Hp & Hrest).
    destruct (IH _ _ _ Hrest) as (w1 & Hfront & Hback).
    exists w1. split; [|done].
    by rewrite (process_each_cons_run _ _ _ _ _ _ Hl Hd Hp).
Qed.

(** An object that is listed at one position only ends with what the
    processor returned for its payload. *)
Lemma process_each_once hits w w' i r data data' :
  process_each ext search_term user hits w = (Ok tt, w') →
  hits !! i = Some r → r ∉ delete i hits →
  stored_data (objects w) r = Some data →
  process_result ext data search_term user = Ok data' →
  stored_data (objects w') r = Some data'.
Proof.
  intros Hloop Hi Helse Hdata Hp.
  rewrite delete_take_drop in Helse.
  apply not_elem_of_app in Helse as [Hfront Hback].
  rewrite <- (take_drop_middle hits i r Hi) in Hloop.
  destruct (process_each_app_inv _ _ _ _ Hloop) as (w1 & Hloop1 & Hloop2).
  pose proof (process_each_untouched _ _ _ _ Hloop1 Hfront) as Hsame.
  destruct (process_each_not_ref_inv _ _ _ _ Hloop2) as [l ->].
  destruct (process_each_cons_inv _ _ _ _ Hloop2)
    as (hit & data0 & data0' & Hl & Hd & Hp0 & Hrest).
  rewrite (process_each_untouched _ _ _ _ Hrest Hback).
  rewrite stored_data_after_turn_same.
  rewrite Hdata in Hsame. simpl in Hsame. rewrite Hl in Hsame.
  simpl in Hsame. congruence.
Qed.

(** The loop runs to its end when every element has a payload and the
    processor returns on every payload. *)
Lemma process_each_returns hits : ∀ w,
  (∀ r, r ∈ hits → is_Some (stored_data (objects w) r)) →
  (∀ data, ∃ data', process_result ext data search_term user = Ok data') →
  ∃ w', process_each ext search_term user hits w = (Ok tt, w').
Proof.
  induction hits as [|r0 rest IH]; intros w Hall Htotal.
  - by exists w.
  - destruct (Hall r0) as [data Hdata]; [apply elem_of_cons; by left|].
    destruct r0 as [| | | | | |l]; try done.
    simpl in Hdata. destruct (objects w !! l) as [hit|] eqn:Hl; [|done].
    simpl in Hdata. destruct (Htotal data) as [data' Hp].
    rewrite (process_each_cons_run _ _ _ _ _ _ Hl Hdata Hp).
    apply IH; [|done]. intros r Hin.
    destruct (value_ref_dec r l) as [->|Hne].
    + rewrite stored_data_after_turn_same. eauto.
    + rewrite stored_data_after_turn_other; [|done].
      apply Hall, elem_of_cons. by right.
Qed.

(** With a payload behind every element, a comprehension is the filter of
    the list by its test and changes nothing. *)
Lemma select_hits_filter want_none hits w :
  (∀ r, r ∈ hits → is_Some (stored_data (objects w) r)) →
  select_hits want_none hits w =
  (Ok (filter (selected_in (objects w) want_none) hits), w).
Proof.
  induction hits as [|r rest IH]; intros Hall; [done|].
  destruct (Hall r) as [data Hdata]; [apply elem_of_cons; by left|].
  simpl. rewrite (bind_ok _ _ _ _ _ (hit_data_ok _ _ _ Hdata)).
  rewrite (bind_ok _ _ _ _ _
             (IH (λ r' Hin, Hall r' (list_elem_of_further _ _ _ Hin)))).
  unfold ret. rewrite filter_cons.
  assert (Hsel : selected_in (objects w) want_none r
                 = bool_decide (is_none data = want_none))
    by (unfold selected_in; by rewrite Hdata).
  rewrite Hsel. case_bool_decide; by case_decide.
Qed.

(** Every element with a payload passes exactly one of the two tests. *)
Lemma denied_visible_partition h hits :
  (∀ r, r ∈ hits → is_Some (stored_data h r)) →
  (length (filter (visible_in h) hits) + length (filter (denied_in h) hits)
   = length hits)%nat.
Proof.
  induction hits as [|r rest IH]; intros Hall; [done|].
  destruct (Hall r) as [data Hdata]; [apply elem_of_cons; by left|].
  specialize (IH (λ r' Hin, Hall r' (list_elem_of_further _ _ _ Hin))).
  rewrite !filter_cons.
  assert (Hv : visible_in h r = negb (is_none data))
    by (unfold visible_in, selected_in; rewrite Hdata; by destruct data).
  assert (Hd : denied_in h r = is_none data)
    by (unfold denied_in, selected_in; rewrite Hdata; by destruct data).
  rewrite Hv, Hd. destruct (is_none data); simpl; lia.
Qed.

Lemma post_process_after_loop results hits w w1 :
  results !! "results" = Some (VList hits) →
  process_each ext search_term user hits w = (Ok tt, w1) →
  post_process ext search_term user results w =
  (Ok (processed (objects w1) results hits), w1).
Proof.
  intros Hres Hloop. unfold post_process.
  assert (Hget : ∀ w0, getitem results "results" w0 = (Ok (VList hits), w0)).
  { intros w0. unfold getitem. by rewrite Hres. }
  rewrite (bind_ok _ _ _ _ _ (Hget w)).
  rewrite (bind_ok (as_list (VList hits)) _ w hits w eq_refl).
  rewrite (bind_ok _ _ _ _ _ Hloop).
  rewrite (bind_ok _ _ _ _ _ (Hget w1)).
  rewrite (bind_ok (as_list (VList hits)) _ w1 hits w1 eq_refl).
  pose proof (process_each_all_data _ _ _ Hloop) as Hall.
  rewrite (bind_ok _ _ _ _ _ (select_hits_filter true _ _ Hall)).
  assert (Hget' : getitem
            (<["access_denied_count" :=
                 VInt (Z.of_nat (length (filter (selected_in (objects w1) true)
                                            hits)))]> results)
            "results" w1 = (Ok (VList hits), w1)).
  { unfold getitem. by rewrite lookup_insert_ne, Hres. }
  rewrite (bind_ok _ _ _ _ _ Hget').
  rewrite (bind_ok (as_list (VList hits)) _ w1 hits w1 eq_refl).
  by rewrite (bind_ok _ _ _ _ _ (select_hits_filter false _ _ Hall)).
Qed.

Lemma post_process_ok_inv results hits w res w' :
  results !! "results" = Some (VList hits) →
  post_process ext search_term user results w = (Ok res, w') →
  process_each ext search_term user hits w = (Ok tt, w') ∧
  res = processed (objects w') results hits.
Proof.
  intros Hres Hrun.
  destruct (process_each ext search_term user hits w) as [[[]|e] w1] eqn:Hloop.
  - rewrite (post_process_after_loop _ _ _ _ Hres Hloop) in Hrun.
    by inversion Hrun; subst.
  - exfalso. revert Hrun. unfold post_process.
    rewrite (bind_ok (getitem results "results") _ w (VList hits) w);
      [|unfold getitem; by rewrite Hres].
    rewrite (bind_ok (as_list (VList hits)) _ w hits w eq_refl).
    by rewrite (bind_raise _ _ _ _ _ Hloop).
Qed.

End PostProcessing.

Lemma calls_during_app w w' evs :
  trace w' = trace w ++ evs → calls_during w w' = evs.
Proof. intros H. unfold calls_during. rewrite H. apply drop_app_length. Qed.

(** ** One position of a filtered list *)

Section FilterAt.

Context {A : Type} (P : A → bool).

Lemma filter_at_kept (l : list A) i x :
  l !! i = Some x → P x = true →
  filter P l !! length (filter P (take i l)) = Some x ∧
  filter P l = filter P (take i l) ++ x :: filter P (drop (S i) l).
Proof.
  intros Hi Hx.
  assert (Heq : filter P l
                = filter P (take i l) ++ x :: filter P (drop (S i) l)).
  { rewrite <- (take_drop_middle l i x Hi) at 1.
    rewrite filter_app, filter_cons_True; [done|]. by rewrite Hx. }
  split; [|exact Heq]. rewrite Heq. by apply list_lookup_middle.
Qed.

Lemma filter_at_dropped (l : list A) i x :
  l !! i = Some x → P x = false → filter P l = filter P (delete i l).
Proof.
  intros Hi Hx. rewrite <- (take_drop_middle l i x Hi) at 1.
  rewrite delete_take_drop, !filter_app.
  rewrite filter_cons_False; [done|]. rewrite Hx. exact id.
Qed.

Lemma filter_at_counted (l : list A) i x :
  l !! i = Some x → P x = true →
  length (filter P l) = S (length (filter P (delete i l))).
Proof.
  intros Hi Hx. rewrite (proj2 (filter_at_kept l i x Hi Hx)).
  rewrite delete_take_drop, filter_app, !length_app. simpl. lia.
Qed.

End FilterAt.

(** ** The dictionaries of [course_discovery_search] *)

Lemma derive_status_str today s fields exclude w :
  derive_status today (VStr s) fields exclude w
  = (Ok (derived_fields today s fields,
         <["invitation_only" := VBool false]> exclude), w).
Proof.
  unfold derive_status, derived_fields, wants_invitation_only, bind, ret.
  simpl. case_bool_decide as Hinv; simpl.
  - subst s. by rewrite bool_decide_eq_true_2 by (vm_compute; set_solver).
  - done.
Qed.

Lemma derive_status_not_str today status_value fields exclude w :
  (∀ s, status_value ≠ VStr s) →
  derive_status today status_value fields exclude w
  = (Raise AttributeError, w).
Proof. intros Hns. destruct status_value; try done. by destruct (Hns s). Qed.

(** Only ["org"] can be seeded. *)
Lemma seeded_lookup_ne ext k : k ≠ "org" → seeded ext !! k = None.
Proof.
  intros Hne. unfold seeded. apply map_lookup_filter_None. right.
  intros v _. simpl. rewrite list_elem_of_singleton. done.
Qed.

(** [update] is last-write-wins, key by key. *)
Lemma merged_lookup ext field_dictionary k :
  merged ext field_dictionary !! k =
  match field_dictionary ≫= (λ overrides, overrides !! k) with
  | Some v => Some v
  | None => seeded ext !! k
  end.
Proof.
  unfold merged, merge_overrides. destruct field_dictionary as [overrides|];
    simpl; [|done].
  case_bool_decide as Hsize.
  - destruct (overrides !! k) as [v|] eqn:Hk.
    + by apply lookup_union_Some_l.
    + by rewrite lookup_union_r.
  - assert (overrides = ∅) as -> by (apply map_size_empty_iff; lia).
    by rewrite lookup_empty.
Qed.

Lemma derived_fields_estatus today s fields :
  derived_fields today s fields !! "estatus" = None.
Proof.
  unfold derived_fields, status_dates. simpl.
  repeat case_bool_decide;
    repeat (rewrite lookup_insert_ne by done); apply lookup_delete_eq.
Qed.

(** The status derivation writes no key but its three. *)
Lemma derived_fields_other today s fields k :
  k ∉ ["estatus"; "start"; "end"; "invitation_only"] →
  derived_fields today s fields !! k = fields !! k.
Proof.
  intros Hk. rewrite !not_elem_of_cons in Hk.
  destruct Hk as (? & ? & ? & ? & _).
  unfold derived_fields, status_dates. simpl.
  repeat case_bool_decide;
    repeat (rewrite lookup_insert_ne by done);
    by apply lookup_delete_ne.
Qed.

(** What the status derivation writes does not depend on the dictionary it
    writes into: its result is its writes, laid over the dictionary. *)
Lemma derived_fields_union today s fields :
  derived_fields today s fields
  = derived_fields today s ∅ ∪ delete "estatus" fields.
Proof.
  unfold derived_fields, status_dates. simpl. rewrite delete_empty.
  repeat case_bool_decide;
    repeat rewrite <- insert_union_l; by rewrite (left_id_L ∅ (∪)).
Qed.

Lemma derived_fields_ongoing today fields :
  derived_fields today "ongoing" fields
  = <["end" := VDateRange (DateRange (Some today) None)]>
      (<["start" := VDateRange (DateRange None (Some today))]>
         (delete "estatus" fields)).
Proof.
  unfold derived_fields.
  replace (split "ongoing") with ["ongoing"] by reflexivity.
  rewrite bool_decide_eq_false_2; [done|].
  rewrite list_elem_of_singleton. done.
Qed.

(** A status that is none of the three and has no [invitation_only] token
    only loses its key. *)
Lemma derived_fields_unrecognised today s fields :
  s ∉ ["ongoing"; "upcoming"; "finished"] →
  "invitation_only" ∉ split s →
  derived_fields today s fields = delete "estatus" fields.
Proof.
  intros Hs Hinv. rewrite !not_elem_of_cons in Hs.
  destruct Hs as (? & ? & ? & _).
  unfold derived_fields, status_dates. simpl.
  rewrite (bool_decide_eq_false_2 _ Hinv).
  by repeat case_bool_decide.
Qed.

Lemma engine_fields_lookup_ne django w fields k :
  k ≠ "enrollment_start" →
  engine_fields django w fields !! k = fields !! k.
Proof.
  intros Hne. unfold engine_fields. destruct (skips django); [done|].
  by rewrite lookup_insert_ne.
Qed.

(** The two ways through the status derivation that let the call go on. *)
Lemma status_step_inv ext field_dictionary today fields exclude :
  status_step ext field_dictionary today fields exclude →
  (merged ext field_dictionary !! "estatus" = None ∧
   fields = merged ext field_dictionary ∧ exclude = default_exclude ext)
  ∨ (∃ s, merged ext field_dictionary !! "estatus" = Some (VStr s) ∧
          fields = derived_fields today s (merged ext field_dictionary) ∧
          exclude = <["invitation_only" := VBool false]> (default_exclude ext)).
Proof.
  unfold status_step.
  destruct (merged ext field_dictionary !! "estatus") as [status_value|];
    [|by left].
  intros H. right. specialize (H idle).
  destruct status_value as [| | |s| | |]; try discriminate H.
  rewrite derive_status_str in H. inversion H. by exists s.
Qed.

Lemma status_step_str ext field_dictionary today s :
  merged ext field_dictionary !! "estatus" = Some (VStr s) →
  status_step ext field_dictionary today
    (derived_fields today s (merged ext field_dictionary))
    (<["invitation_only" := VBool false]> (default_exclude ext)).
Proof.
  intros H. unfold status_step. rewrite H. intros w. apply derive_status_str.
Qed.

Lemma status_step_none ext field_dictionary today :
  merged ext field_dictionary !! "estatus" = None →
  status_step ext field_dictionary today (merged ext field_dictionary)
    (default_exclude ext).
Proof. intros H. unfold status_step. by rewrite H. Qed.

(** ** The runs of [course_discovery_search] *)

Section Discovery.

Context (django : settings) (ext : collaborators).
Context (search_term size from_ : value) (field_dictionary : option dict).

(** The status derivation reads and writes nothing outside its arguments:
    it returns the same in every world, or raises [AttributeError] in
    every world. *)
Lemma derive_status_cases today status_value fields exclude :
  (∃ fields' exclude',
     ∀ w, derive_status today status_value fields exclude w
          = (Ok (fields', exclude'), w))
  ∨ (∀ w, derive_status today status_value fields exclude w
          = (Raise AttributeError, w)).
Proof.
  unfold derive_status, wants_invitation_only.
  destruct (py_eq_str status_value "invitation_only").
  - left. eexists _, _. intros w. reflexivity.
  - destruct status_value; try (right; intros w; reflexivity).
    left. eexists _, _. intros w. reflexivity.
Qed.

(** A completed status derivation, as the step of the run that it is. *)
Lemma status_step_run today fields exclude :
  status_step ext field_dictionary today fields exclude →
  ∀ w0,
    match merged ext field_dictionary !! "estatus" with
    | Some status_value =>
        derive_status today status_value (merged ext field_dictionary)
          (default_exclude ext)
    | None => ret (merged ext field_dictionary, default_exclude ext)
    end w0 = (Ok (fields, exclude), w0).
Proof.
  unfold status_step. intros Hstep w0.
  destruct (merged ext field_dictionary !! "estatus"); [apply Hstep|].
  by destruct Hstep as [-> ->].
Qed.

(** The run that reaches the engine. *)
Lemma discovery_run eng fields exclude w :
  get_search_engine ext (info_index django) = Some eng →
  status_step ext field_dictionary (clock w (clock_reads w)) fields exclude →
  course_discovery_search django ext search_term size from_ field_dictionary w
  = let '(r, h) := search eng search_term size from_
                     (engine_fields django w fields)
                     (engine_filters django w) exclude
                     (course_discovery_aggregations django) (objects w) in
    (r, World (clock w) (S (end_reading django w)) h
          (trace w ++ calls_before_search django w
             ++ [CallUtcnow (clock w (end_reading django w));
                 search_call django search_term size from_ w fields exclude])).
Proof.
  intros Heng Hstep. start_discovery django ext field_dictionary.
  rewrite (status_step_run _ _ _ Hstep).
  unfold engine_fields, engine_filters, search_call, calls_before_search,
    end_reading, engine_fields, engine_filters, end_reading.
  destruct (skips django); cbn -[course_discovery_aggregations];
    unfold bind, ret, log_call, utcnow, call_search;
    cbn -[course_discovery_aggregations];
    rewrite Heng; cbn -[course_discovery_aggregations];
    destruct (search eng _ _ _ _ _ _ _ _) as [r h];
    by rewrite <- !app_assoc.
Qed.

(** The run that finds no engine. *)
Lemma discovery_no_engine fields exclude w :
  get_search_engine ext (info_index django) = None →
  status_step ext field_dictionary (clock w (clock_reads w)) fields exclude →
  course_discovery_search django ext search_term size from_ field_dictionary w
  = (Raise (NoSearchEngineError
              "No search engine specified in settings.SEARCH_ENGINE"),
     World (clock w) (end_reading django w) (objects w)
           (trace w ++ calls_before_search django w)).
Proof.
  intros Heng Hstep. start_discovery django ext field_dictionary.
  rewrite (status_step_run _ _ _ Hstep).
  unfold calls_before_search, end_reading.
  destruct (skips django); cbn; unfold bind, ret, log_call, utcnow, raise; cbn;
    rewrite Heng; cbn; by rewrite <- !app_assoc.
Qed.

(** The run whose status value has no [split]. *)
Lemma discovery_bad_status status_value w :
  merged ext field_dictionary !! "estatus" = Some status_value →
  (∀ w0, derive_status (clock w (clock_reads w)) status_value
           (merged ext field_dictionary) (default_exclude ext) w0
         = (Raise AttributeError, w0)) →
  course_discovery_search django ext search_term size from_ field_dictionary w
  = (Raise AttributeError,
     World (clock w) (S (clock_reads w)) (objects w)
           (trace w ++ [CallGenerateFieldFilters [];
                        CallUtcnow (clock w (clock_reads w))])).
Proof.
  intros Hstatus Hraise. start_discovery django ext field_dictionary.
  rewrite Hstatus, Hraise. by rewrite <- !app_assoc.
Qed.

(** The status derivation either completes or stops the call. *)
Lemma status_step_cases today :
  (∃ fields exclude, status_step ext field_dictionary today fields exclude)
  ∨ (∃ status_value,
       merged ext field_dictionary !! "estatus" = Some status_value ∧
       ∀ w0, derive_status today status_value (merged ext field_dictionary)
               (default_exclude ext) w0
             = (Raise AttributeError, w0)).
Proof.
  unfold status_step.
  destruct (merged ext field_dictionary !! "estatus") as [status_value|].
  - destruct (derive_status_cases today status_value
                (merged ext field_dictionary) (default_exclude ext))
      as [(fields & exclude & H)|H]; [left|right]; eauto.
  - left. eauto.
Qed.

(** Whatever reached the engine came out of the run that [discovery_run]
    describes. *)
Lemma discovery_passed_inv w r w' fields_given filters_given exclude_given :
  course_discovery_search django ext search_term size from_ field_dictionary w
  = (r, w') →
  passed_to_engine w w' fields_given filters_given exclude_given →
  ∃ eng fields,
    get_search_engine ext (info_index django) = Some eng ∧
    status_step ext field_dictionary (clock w (clock_reads w)) fields
      exclude_given ∧
    fields_given = engine_fields django w fields ∧
    filters_given = engine_filters django w ∧
    clock_reads w' = S (end_reading django w) ∧
    calls_during w w' =
      calls_before_search django w
      ++ [CallUtcnow (clock w (end_reading django w));
          search_call django search_term size from_ w fields exclude_given].
Proof.
  intros Hrun (q & sz & fr & aggs & Hin).
  destruct (status_step_cases (clock w (clock_reads w)))
    as [(fields & exclude & Hstep)|(status_value & Hstatus & Hraise)].
  - destruct (get_search_engine ext (info_index django)) as [eng|] eqn:Heng.
    + rewrite (discovery_run eng fields exclude w Heng Hstep) in Hrun.
      destruct (search eng _ _ _ _ _ _ _ _) as [r0 h].
      inversion Hrun; subst r0 w'; clear Hrun.
      rewrite (calls_during_app _ _ (calls_before_search django w ++ _)) in Hin
        by reflexivity.
      assert (Hsame : CallSearch q sz fr fields_given filters_given
                        exclude_given aggs
                      = search_call django search_term size from_ w fields
                          exclude).
      { revert Hin. unfold calls_before_search.
        destruct (skips django); cbn; rewrite !elem_of_cons, elem_of_nil;
          intros H; by repeat destruct H as [H|H]. }
      unfold search_call in Hsame. inversion Hsame; subst.
      exists eng, fields. repeat split; try done.
      by apply calls_during_app.
    + rewrite (discovery_no_engine fields exclude w Heng Hstep) in Hrun.
      inversion Hrun; subst r w'; clear Hrun.
      rewrite (calls_during_app _ _ (calls_before_search django w)) in Hin
        by done.
      exfalso. revert Hin. unfold calls_before_search.
      destruct (skips django); cbn; rewrite !elem_of_cons, elem_of_nil;
        intros H; by repeat destruct H as [H|H].
  - rewrite (discovery_bad_status status_value w Hstatus Hraise) in Hrun.
    inversion Hrun; subst r w'; clear Hrun.
    rewrite (calls_during_app _ _ [CallGenerateFieldFilters [];
               CallUtcnow (clock w (clock_reads w))]) in Hin by done.
    exfalso. revert Hin. rewrite !elem_of_cons, elem_of_nil.
    intros H; by repeat destruct H as [H|H].
Qed.

(** With an engine behind the index, the call gets to the engine unless
    the status derivation stops it. *)
Lemma discovery_reaches eng fields exclude w :
  get_search_engine ext (info_index django) = Some eng →
  status_step ext field_dictionary (clock w (clock_reads w)) fields exclude →
  ∃ r w',
    course_discovery_search django ext search_term size from_
      field_dictionary w = (r, w') ∧
    passed_to_engine w w' (engine_fields django w fields)
      (engine_filters django w) exclude ∧
    (r, objects w') =
      search eng search_term size from_ (engine_fields django w fields)
        (engine_filters django w) exclude
        (course_discovery_aggregations django) (objects w).
Proof.
  intros Heng Hstep.
  pose proof (discovery_run eng fields exclude w Heng Hstep) as Hrun.
  destruct (search eng _ _ _ _ _ _ _ _) as [r h].
  eexists _, _. split; [exact Hrun|]. split; [|done].
  exists search_term, size, from_, (course_discovery_aggregations django).
  rewrite (calls_during_app _ _ (calls_before_search django w ++ _))
    by reflexivity.
  apply elem_of_app. right. apply elem_of_cons. right. apply list_elem_of_here.
Qed.

(** A call sees of the clock only the readings it takes. *)
Lemma discovery_clock_only w c :
  (∀ i, (i < readings_taken django)%nat →
        c (clock_reads w + i)%nat = clock w (clock_reads w + i)%nat) →
  let run := course_discovery_search django ext search_term size from_
               field_dictionary in
  (run (with_clock c w)).1 = (run w).1 ∧
  clock_reads (run (with_clock c w)).2 = clock_reads (run w).2 ∧
  objects (run (with_clock c w)).2 = objects (run w).2 ∧
  trace (run (with_clock c w)).2 = trace (run w).2.
Proof.
  intros Hsame run. subst run.
  assert (H0 : c (clock_reads w) = clock w (clock_reads w)).
  { specialize (Hsame 0%nat). rewrite Nat.add_0_r in Hsame. apply Hsame.
    unfold readings_taken. destruct (skips django); lia. }
  assert (H1 : c (S (clock_reads w)) = clock w (S (clock_reads w))).
  { specialize (Hsame 1%nat). rewrite Nat.add_1_r in Hsame. apply Hsame.
    unfold readings_taken. destruct (skips django); lia. }
  assert (H2 : skips django = false →
               c (S (S (clock_reads w))) = clock w (S (S (clock_reads w)))).
  { intros Hflag. specialize (Hsame 2%nat).
    replace (clock_reads w + 2)%nat with (S (S (clock_reads w))) in Hsame
      by lia.
    apply Hsame. unfold readings_taken. rewrite Hflag. lia. }
  assert (Hfields : ∀ fields, engine_fields django (with_clock c w) fields
                              = engine_fields django w fields).
  { intros fields. unfold engine_fields. simpl. by rewrite H1. }
  assert (Hend : end_reading django (with_clock c w) = end_reading django w)
    by done.
  assert (Hfilters : engine_filters django (with_clock c w)
                     = engine_filters django w).
  { unfold engine_filters. rewrite Hend. unfold end_reading. simpl.
    destruct (skips django) eqn:Hflag; [by rewrite H1|by rewrite H2]. }
  assert (Hbefore : calls_before_search django (with_clock c w)
                    = calls_before_search django w).
  { unfold calls_before_search. simpl. by rewrite H0, H1. }
  assert (Hlast : clock (with_clock c w) (end_reading django w)
                  = clock w (end_reading django w)).
  { unfold end_reading. simpl.
    destruct (skips django) eqn:Hflag; [by rewrite H1|by rewrite H2]. }
  destruct (status_step_cases (clock w (clock_reads w)))
    as [(fields & exclude & Hstep)|(status_value & Hstatus & Hraise)].
  - assert (Hstep' : status_step ext field_dictionary
              (clock (with_clock c w) (clock_reads (with_clock c w)))
              fields exclude) by (simpl; by rewrite H0).
    destruct (get_search_engine ext (info_index django)) as [eng|] eqn:Heng.
    + rewrite (discovery_run eng fields exclude _ Heng Hstep').
      rewrite (discovery_run eng fields exclude _ Heng Hstep).
      unfold search_call. rewrite Hfields, Hfilters, Hbefore, Hend, Hlast.
      simpl. by destruct (search eng _ _ _ _ _ _ _ _).
    + rewrite (discovery_no_engine fields exclude _ Heng Hstep').
      rewrite (discovery_no_engine fields exclude _ Heng Hstep).
      by rewrite Hbefore.
  - assert (Hraise' : ∀ w0, derive_status
              (clock (with_clock c w) (clock_reads (with_clock c w)))
              status_value (merged ext field_dictionary)
              (default_exclude ext) w0 = (Raise AttributeError, w0))
      by (simpl; by rewrite H0).
    rewrite (discovery_bad_status status_value _ Hstatus Hraise').
    rewrite (discovery_bad_status status_value _ Hstatus Hraise).
    simpl. by rewrite H0.
Qed.

End Discovery.

(** * Properties of [course_discovery_search] *)

(** C7: when the merged field dictionary maps [estatus] to exactly
    ["ongoing"], the field dictionary handed to the engine has
    [start = DateRange(None, now)] and [end = DateRange(now, None)], and the
    exclude dictionary handed to it maps [invitation_only] to [False];
    [now] is the clock reading taken before the status derivation. *)
Theorem ongoing_status_constraints django ext search_term size from_
    field_dictionary w r w' fields filters exclude :
  merged ext field_dictionary !! "estatus" = Some (VStr "ongoing") →
  course_discovery_search django ext search_term size from_
    field_dictionary w = (r, w') →
  passed_to_engine w w' fields filters exclude →
  let now := clock w (clock_reads w) in
  fields !! "start" = Some (VDateRange (DateRange None (Some now))) ∧
  fields !! "end" = Some (VDateRange (DateRange (Some now) None)) ∧
  exclude !! "invitation_only" = Some (VBool false).
Proof.
  intros Hstatus Hrun Hpassed now.
  destruct (discovery_passed_inv _ _ _ _ _ _ _ _ _ _ _ _ Hrun Hpassed)
    as (eng & fields1 & _ & Hstep & -> & _).
  apply status_step_inv in Hstep as [[Hnone _]|(s & Hs & -> & ->)];
    [congruence|].
  assert (s = "ongoing") as -> by congruence.
  rewrite !engine_fields_lookup_ne by done.
  rewrite derived_fields_ongoing.
  repeat split; by simplify_map_eq.
Qed.

Lemma ongoing_status_constraints_witness :
  let run := Demo.discover Demo.defaults Demo.services
               (Demo.with_status "ongoing") in
  ∃ fields filters exclude,
    merged Demo.services (Demo.with_status "ongoing") !! "estatus"
      = Some (VStr "ongoing") ∧
    passed_to_engine Demo.start run.2 fields filters exclude ∧
    fields !! "start" = Some (VDateRange (DateRange None (Some 100))) ∧
    fields !! "end" = Some (VDateRange (DateRange (Some 100) None)) ∧
    exclude !! "invitation_only" = Some (VBool false).
Proof.
  intros run.
  exists (<["enrollment_start" := VDateRange (DateRange None (Some 101))]>
            (<["end" := VDateRange (DateRange (Some 100) None)]>
               (<["start" := VDateRange (DateRange None (Some 100))]>
                  {["org" := VStr "edX"]}))),
         {["enrollment_end" := VDateRange (DateRange (Some 102) None)]},
         {["invitation_only" := VBool false]}.
  assert (Hstatus : merged Demo.services (Demo.with_status "ongoing")
                      !! "estatus" = Some (VStr "ongoing"))
    by (vm_compute; reflexivity).
  assert (Hrun : run = (run.1, run.2)) by (by destruct run).
  assert (Hpassed : passed_to_engine Demo.start run.2
            (<["enrollment_start" := VDateRange (DateRange None (Some 101))]>
               (<["end" := VDateRange (DateRange (Some 100) None)]>
                  (<["start" := VDateRange (DateRange None (Some 100))]>
                     {["org" := VStr "edX"]})))
            {["enrollment_end" := VDateRange (DateRange (Some 102) None)]}
            {["invitation_only" := VBool false]})
    by engine_saw.
  split; [exact Hstatus|]. split; [exact Hpassed|].
  exact (ongoing_status_constraints Demo.defaults Demo.services VNone
           (VInt 20) (VInt 0) (Demo.with_status "ongoing") Demo.start
           run.1 run.2 _ _ _ Hstatus Hrun Hpassed).
Defined.

(** C6: when [estatus] is a string that is none of [ongoing], [upcoming],
    [finished] and has no whitespace token [invitation_only], the status
    derivation raises nothing and only drops the key: the dictionary handed
    to the engine has no [estatus], its [start], [end] and [invitation_only]
    entries are those of the merged dictionary, the exclude dictionary maps
    [invitation_only] to [False], and with an engine behind the index the
    call returns what the engine returns. *)
Theorem unrecognised_status_is_dropped django ext search_term size from_
    field_dictionary s w :
  merged ext field_dictionary !! "estatus" = Some (VStr s) →
  s ∉ ["ongoing"; "upcoming"; "finished"] →
  "invitation_only" ∉ split s →
  (∀ today exclude w0,
     derive_status today (VStr s) (merged ext field_dictionary) exclude w0
     = (Ok (delete "estatus" (merged ext field_dictionary),
            <["invitation_only" := VBool false]> exclude), w0))
  ∧ (∀ r w' fields filters exclude,
       course_discovery_search django ext search_term size from_
         field_dictionary w = (r, w') →
       passed_to_engine w w' fields filters exclude →
       fields !! "estatus" = None ∧
       fields !! "start" = merged ext field_dictionary !! "start" ∧
       fields !! "end" = merged ext field_dictionary !! "end" ∧
       fields !! "invitation_only"
         = merged ext field_dictionary !! "invitation_only" ∧
       exclude !! "invitation_only" = Some (VBool false))
  ∧ (∀ eng,
       get_search_engine ext (info_index django) = Some eng →
       ∃ r w' fields filters exclude,
         course_discovery_search django ext search_term size from_
           field_dictionary w = (r, w') ∧
         passed_to_engine w w' fields filters exclude ∧
         (r, objects w') =
           search eng search_term size from_ fields filters exclude
             (course_discovery_aggregations django) (objects w)).
Proof.
  intros Hstatus Hs Hinv. split; [|split].
  - intros today exclude w0. rewrite derive_status_str.
    by rewrite derived_fields_unrecognised.
  - intros r w' fields filters exclude Hrun Hpassed.
    destruct (discovery_passed_inv _ _ _ _ _ _ _ _ _ _ _ _ Hrun Hpassed)
      as (eng & fields1 & _ & Hstep & -> & _).
    apply status_step_inv in Hstep as [[Hnone _]|(s' & Hs' & -> & ->)];
      [congruence|].
    assert (s' = s) as -> by congruence.
    rewrite !engine_fields_lookup_ne by done.
    rewrite derived_fields_unrecognised by done.
    rewrite lookup_delete_eq, !lookup_delete_ne by done.
    repeat split; by simplify_map_eq.
  - intros eng Heng.
    destruct (discovery_reaches django ext search_term size from_
                field_dictionary eng _ _ w Heng
                (status_step_str _ _ _ _ Hstatus))
      as (r & w' & Hrun & Hpassed & Hres).
    by eexists r, w', _, _, _.
Qed.

Lemma unrecognised_status_is_dropped_witness :
  let overrides := Demo.with_status "archived" in
  merged Demo.services overrides !! "estatus" = Some (VStr "archived") ∧
  ("archived" ∉ ["ongoing"; "upcoming"; "finished"]) ∧
  ("invitation_only" ∉ split "archived") ∧
  ∃ r w' fields filters exclude,
    Demo.discover Demo.defaults Demo.services overrides = (r, w') ∧
    passed_to_engine Demo.start w' fields filters exclude ∧
    (r, objects w') =
      search Demo.quiet VNone (VInt 20) (VInt 0) fields filters exclude
        (course_discovery_aggregations Demo.defaults) (objects Demo.start).
Proof.
  intros overrides.
  assert (Hstatus : merged Demo.services overrides !! "estatus"
                    = Some (VStr "archived")) by (vm_compute; reflexivity).
  assert (Hs : "archived" ∉ ["ongoing"; "upcoming"; "finished"])
    by (rewrite !not_elem_of_cons; repeat split;
        [done..|apply not_elem_of_nil]).
  assert (Hinv : "invitation_only" ∉ split "archived")
    by (change ("invitation_only" ∉ ["archived"]);
        rewrite list_elem_of_singleton; done).
  split; [exact Hstatus|]. split; [exact Hs|]. split; [exact Hinv|].
  exact (proj2 (proj2 (unrecognised_status_is_dropped Demo.defaults
                         Demo.services VNone (VInt 20) (VInt 0) overrides
                         "archived" Demo.start Hstatus Hs Hinv))
           Demo.quiet eq_refl).
Defined.

(** C1: with [estatus = "ongoing invitation_only"] the code compares the
    whole string with ["ongoing"], which fails, so no date constraint is
    written: the dictionary handed to the engine has [invitation_only = True]
    and keeps for [start] and [end] whatever the merged dictionary held,
    which is nothing when the caller passes the status alone. *)
Theorem ongoing_invitation_only_sets_no_dates django ext search_term size
    from_ field_dictionary w r w' fields filters exclude :
  merged ext field_dictionary !! "estatus"
    = Some (VStr "ongoing invitation_only") →
  course_discovery_search django ext search_term size from_
    field_dictionary w = (r, w') →
  passed_to_engine w w' fields filters exclude →
  fields !! "start" = merged ext field_dictionary !! "start" ∧
  fields !! "end" = merged ext field_dictionary !! "end" ∧
  fields !! "invitation_only" = Some (VBool true).
Proof.
  intros Hstatus Hrun Hpassed.
  destruct (discovery_passed_inv _ _ _ _ _ _ _ _ _ _ _ _ Hrun Hpassed)
    as (eng & fields1 & _ & Hstep & -> & _).
  apply status_step_inv in Hstep as [[Hnone _]|(s & Hs & -> & ->)];
    [congruence|].
  assert (s = "ongoing invitation_only") as -> by congruence.
  rewrite !engine_fields_lookup_ne by done.
  unfold derived_fields.
  replace (split "ongoing invitation_only")
    with ["ongoing"; "invitation_only"] by reflexivity.
  rewrite bool_decide_eq_true_2
    by (apply elem_of_cons; right; apply list_elem_of_here).
  unfold status_dates. simpl.
  rewrite lookup_insert_eq, !lookup_insert_ne, !lookup_delete_ne by done.
  done.
Qed.

Lemma ongoing_invitation_only_sets_no_dates_witness :
  let overrides := Demo.with_status "ongoing invitation_only" in
  let run := Demo.discover Demo.defaults Demo.services overrides in
  ∃ fields filters exclude,
    merged Demo.services overrides !! "estatus"
      = Some (VStr "ongoing invitation_only") ∧
    passed_to_engine Demo.start run.2 fields filters exclude ∧
    fields !! "start" = None ∧
    fields !! "end" = None ∧
    fields !! "invitation_only" = Some (VBool true).
Proof.
  intros overrides run.
  exists (<["enrollment_start" := VDateRange (DateRange None (Some 101))]>
            (<["invitation_only" := VBool true]> {["org" := VStr "edX"]})),
         {["enrollment_end" := VDateRange (DateRange (Some 102) None)]},
         {["invitation_only" := VBool false]}.
  assert (Hstatus : merged Demo.services overrides !! "estatus"
                    = Some (VStr "ongoing invitation_only"))
    by (vm_compute; reflexivity).
  assert (Hrun : run = (run.1, run.2)) by (by destruct run).
  assert (Hpassed : passed_to_engine Demo.start run.2
            (<["enrollment_start" := VDateRange (DateRange None (Some 101))]>
               (<["invitation_only" := VBool true]> {["org" := VStr "edX"]}))
            {["enrollment_end" := VDateRange (DateRange (Some 102) None)]}
            {["invitation_only" := VBool false]})
    by engine_saw.
  split; [exact Hstatus|]. split; [exact Hpassed|].
  exact (ongoing_invitation_only_sets_no_dates Demo.defaults Demo.services
           VNone (VInt 20) (VInt 0) overrides Demo.start run.1 run.2 _ _ _
           Hstatus Hrun Hpassed).
Defined.

(** C3, as the code has it: with the enrollment start filter switched off
    the code writes no [enrollment_start] and removes none, so the
    dictionary handed to the engine has the caller's [enrollment_start] if
    the caller gave one and none otherwise; with the filter on (the default)
    it has [enrollment_start = DateRange(None, now)], [now] being the clock
    reading taken after the status derivation, whatever the caller gave. *)
Theorem enrollment_start_by_flag django ext search_term size from_
    field_dictionary w r w' fields filters exclude :
  course_discovery_search django ext search_term size from_
    field_dictionary w = (r, w') →
  passed_to_engine w w' fields filters exclude →
  (skips django = true →
   fields !! "enrollment_start"
   = field_dictionary ≫= (λ overrides, overrides !! "enrollment_start"))
  ∧ (skips django = false →
     fields !! "enrollment_start"
     = Some (VDateRange (DateRange None (Some (clock w (S (clock_reads w))))))).
Proof.
  intros Hrun Hpassed.
  destruct (discovery_passed_inv _ _ _ _ _ _ _ _ _ _ _ _ Hrun Hpassed)
    as (eng & fields1 & _ & Hstep & -> & _).
  unfold engine_fields. split; intros Hflag; rewrite Hflag.
  - assert (Hmerged :
      merged ext field_dictionary !! "enrollment_start"
      = field_dictionary ≫= (λ overrides, overrides !! "enrollment_start")).
    { rewrite merged_lookup, seeded_lookup_ne by done.
      by destruct (field_dictionary ≫= _). }
    apply status_step_inv in Hstep as [(_ & -> & _)|(s & _ & -> & _)];
      [done|].
    rewrite derived_fields_other; [done|].
    rewrite !not_elem_of_cons. repeat split; [done..|apply not_elem_of_nil].
  - apply lookup_insert_eq.
Qed.

Lemma enrollment_start_by_flag_witness :
  let overrides : option dict := Some {["enrollment_start" := VStr "any"]} in
  let off := Demo.discover Demo.skipping Demo.services overrides in
  let on := Demo.discover Demo.defaults Demo.services overrides in
  (∃ fields filters exclude,
     passed_to_engine Demo.start off.2 fields filters exclude ∧
     fields !! "enrollment_start" = Some (VStr "any"))
  ∧ (∃ fields filters exclude,
       passed_to_engine Demo.start on.2 fields filters exclude ∧
       fields !! "enrollment_start"
       = Some (VDateRange (DateRange None (Some 101)))).
Proof.
  intros overrides off on. split.
  - exists {["enrollment_start" := VStr "any"; "org" := VStr "edX"]},
           {["enrollment_end" := VDateRange (DateRange (Some 101) None)]}, ∅.
    assert (Hrun : off = (off.1, off.2)) by (by destruct off).
    assert (Hpassed : passed_to_engine Demo.start off.2
              {["enrollment_start" := VStr "any"; "org" := VStr "edX"]}
              {["enrollment_end" := VDateRange (DateRange (Some 101) None)]}
              ∅)
      by engine_saw.
    split; [exact Hpassed|].
    exact (proj1 (enrollment_start_by_flag Demo.skipping Demo.services VNone
                    (VInt 20) (VInt 0) overrides Demo.start off.1 off.2 _ _ _
                    Hrun Hpassed) eq_refl).
  - exists (<["enrollment_start" := VDateRange (DateRange None (Some 101))]>
              {["org" := VStr "edX"]}),
           {["enrollment_end" := VDateRange (DateRange (Some 102) None)]}, ∅.
    assert (Hrun : on = (on.1, on.2)) by (by destruct on).
    assert (Hpassed : passed_to_engine Demo.start on.2
              (<["enrollment_start" := VDateRange (DateRange None (Some 101))]>
                 {["org" := VStr "edX"]})
              {["enrollment_end" := VDateRange (DateRange (Some 102) None)]}
              ∅)
      by engine_saw.
    split; [exact Hpassed|].
    exact (proj2 (enrollment_start_by_flag Demo.defaults Demo.services VNone
                    (VInt 20) (VInt 0) overrides Demo.start on.1 on.2 _ _ _
                    Hrun Hpassed) eq_refl).
Defined.

(** C3 as stated fails: with the filter switched off, an [enrollment_start]
    that the caller supplies is in the dictionary handed to the engine. *)
Lemma enrollment_start_override_reaches_engine :
  ¬ (∀ django ext search_term size from_ field_dictionary w r w'
       fields filters exclude,
       skips django = true →
       course_discovery_search django ext search_term size from_
         field_dictionary w = (r, w') →
       passed_to_engine w w' fields filters exclude →
       fields !! "enrollment_start" = None).
Proof.
  intros Hclaim.
  pose (overrides := Some {["enrollment_start" := VStr "any"]} : option dict).
  pose (off := Demo.discover Demo.skipping Demo.services overrides).
  assert (Hrun : off = (off.1, off.2)) by (by destruct off).
  assert (Hpassed : passed_to_engine Demo.start off.2
            {["enrollment_start" := VStr "any"; "org" := VStr "edX"]}
            {["enrollment_end" := VDateRange (DateRange (Some 101) None)]} ∅)
    by engine_saw.
  specialize (Hclaim Demo.skipping Demo.services VNone (VInt 20) (VInt 0)
                overrides Demo.start off.1 off.2 _ _ _ eq_refl Hrun Hpassed).
  rewrite lookup_insert_eq in Hclaim. discriminate Hclaim.
Qed.

(** C5: a key of the caller's overrides that is also seeded carries the
    caller's value, in the merged dictionary and in the dictionary handed to
    the engine; and the status derivation writes [start], [end] and
    [invitation_only] after the merge: whatever it writes for a status when
    it starts from the empty dictionary is what the engine gets under that
    key, whatever the caller supplied there. *)
Theorem overrides_win_then_status_wins django ext search_term size from_
    field_dictionary w r w' fields filters exclude :
  course_discovery_search django ext search_term size from_
    field_dictionary w = (r, w') →
  passed_to_engine w w' fields filters exclude →
  (∀ k v,
     field_dictionary ≫= (λ overrides, overrides !! k) = Some v →
     is_Some (seeded ext !! k) →
     merged ext field_dictionary !! k = Some v ∧ fields !! k = Some v)
  ∧ (∀ s k v,
       merged ext field_dictionary !! "estatus" = Some (VStr s) →
       k ∈ ["start"; "end"; "invitation_only"] →
       derived_fields (clock w (clock_reads w)) s ∅ !! k = Some v →
       fields !! k = Some v).
Proof.
  intros Hrun Hpassed.
  destruct (discovery_passed_inv _ _ _ _ _ _ _ _ _ _ _ _ Hrun Hpassed)
    as (eng & fields1 & _ & Hstep & -> & _).
  split.
  - intros k v Hk Hseed.
    assert (k = "org") as ->.
    { destruct (decide (k = "org")) as [|Hne]; [done|].
      rewrite (seeded_lookup_ne _ _ Hne) in Hseed. by destruct Hseed. }
    assert (Hmerged : merged ext field_dictionary !! "org" = Some v)
      by (by rewrite merged_lookup, Hk).
    split; [done|]. rewrite engine_fields_lookup_ne by done.
    apply status_step_inv in Hstep as [(_ & -> & _)|(s & _ & -> & _)];
      [done|].
    rewrite derived_fields_other; [done|].
    rewrite !not_elem_of_cons. repeat split; [done..|apply not_elem_of_nil].
  - intros s k v Hs Hk Hwritten.
    apply status_step_inv in Hstep as [[Hnone _]|(s' & Hs' & -> & _)];
      [congruence|].
    assert (s' = s) as -> by congruence.
    rewrite engine_fields_lookup_ne.
    + rewrite derived_fields_union. by apply lookup_union_Some_l.
    + intros ->. rewrite !elem_of_cons, elem_of_nil in Hk.
      by repeat destruct Hk as [Hk|Hk].
Qed.

Lemma overrides_win_then_status_wins_witness :
  let overrides : option dict :=
    Some {["estatus" := VStr "upcoming"; "org" := VStr "MITx";
           "start" := VStr "mine"]} in
  let run := Demo.discover Demo.defaults Demo.services overrides in
  ∃ fields filters exclude,
    passed_to_engine Demo.start run.2 fields filters exclude ∧
    seeded Demo.services !! "org" = Some (VStr "edX") ∧
    fields !! "org" = Some (VStr "MITx") ∧
    fields !! "start" = Some (VDateRange (DateRange (Some 100) None)).
Proof.
  intros overrides run.
  exists (<["enrollment_start" := VDateRange (DateRange None (Some 101))]>
            (<["start" := VDateRange (DateRange (Some 100) None)]>
               {["org" := VStr "MITx"]})),
         {["enrollment_end" := VDateRange (DateRange (Some 102) None)]},
         {["invitation_only" := VBool false]}.
  assert (Hrun : run = (run.1, run.2)) by (by destruct run).
  assert (Hpassed : passed_to_engine Demo.start run.2
            (<["enrollment_start" := VDateRange (DateRange None (Some 101))]>
               (<["start" := VDateRange (DateRange (Some 100) None)]>
                  {["org" := VStr "MITx"]}))
            {["enrollment_end" := VDateRange (DateRange (Some 102) None)]}
            {["invitation_only" := VBool false]})
    by engine_saw.
  pose proof (overrides_win_then_status_wins Demo.defaults Demo.services
                VNone (VInt 20) (VInt 0) overrides Demo.start run.1 run.2
                _ _ _ Hrun Hpassed) as [Hover Hstatus].
  split; [exact Hpassed|]. split; [vm_compute; reflexivity|]. split.
  - refine (proj2 (Hover "org" (VStr "MITx") _ _)).
    + vm_compute; reflexivity.
    + exists (VStr "edX"). vm_compute; reflexivity.
  - refine (Hstatus "upcoming" "start"
              (VDateRange (DateRange (Some 100) None)) _ _ _).
    + vm_compute; reflexivity.
    + apply list_elem_of_here.
    + vm_compute; reflexivity.
Defined.

(** C10, as the code has it: a call that gets to the engine reads the clock
    once before the status derivation (the reading the status dates are
    made of), once more for [enrollment_start] unless the enrollment start
    filter is switched off, and once for [enrollment_end]: three readings
    by default, two with the filter off. They are separate readings of the
    clock and need not be equal. The call depends on the clock through all
    of these readings and through nothing else: another clock with the same
    readings gives the same result, the same heap and the same calls, while
    two clocks that agree on the first reading alone can give different
    calls. *)
Theorem clock_read_for_each_use django ext search_term size from_
    field_dictionary w r w' fields filters exclude :
  let run := course_discovery_search django ext search_term size from_
               field_dictionary in
  let n := clock_reads w in
  run w = (r, w') →
  passed_to_engine w w' fields filters exclude →
  (clock_reads w' = n + readings_taken django)%nat
  ∧ (∃ derived,
       status_step ext field_dictionary (clock w n) derived exclude ∧
       fields = (if skips django then derived
                 else <["enrollment_start" :=
                          VDateRange
                            (DateRange None (Some (clock w (n + 1)%nat)))]>
                        derived) ∧
       filters = {["enrollment_end" :=
                     VDateRange (DateRange
                       (Some (clock w (n + readings_taken django - 1)%nat))
                       None)]} ∧
       calls_during w w' =
         [CallGenerateFieldFilters []; CallUtcnow (clock w n)]
         ++ (if skips django then []
             else [CallUtcnow (clock w (n + 1)%nat)])
         ++ [CallGetSearchEngine (info_index django);
             CallUtcnow (clock w (n + readings_taken django - 1)%nat);
             CallSearch search_term size from_ fields filters exclude
               (course_discovery_aggregations django)])
  ∧ (∀ c,
       (∀ i, (i < readings_taken django)%nat →
             c (n + i)%nat = clock w (n + i)%nat) →
       (run (with_clock c w)).1 = r ∧
       objects (run (with_clock c w)).2 = objects w' ∧
       trace (run (with_clock c w)).2 = trace w')
  ∧ (∃ c1 c2 : nat → datetime,
       c1 0%nat = c2 0%nat ∧
       trace (course_discovery_search Demo.defaults Demo.services VNone
                (VInt 20) (VInt 0) None (with_clock c1 Demo.start)).2
       ≠ trace (course_discovery_search Demo.defaults Demo.services VNone
                  (VInt 20) (VInt 0) None (with_clock c2 Demo.start)).2).
Proof.
  intros run n Hrun Hpassed.
  destruct (discovery_passed_inv _ _ _ _ _ _ _ _ _ _ _ _ Hrun Hpassed)
    as (eng & derived & _ & Hstep & Hfields & Hfilters & Hreads & Hcalls).
  assert (Hlast : (n + readings_taken django - 1)%nat = end_reading django w).
  { unfold readings_taken, end_reading. subst n. destruct (skips django); lia. }
  split; [|split; [|split]].
  - rewrite Hreads. unfold end_reading, readings_taken. subst n.
    destruct (skips django); lia.
  - exists derived. split; [exact Hstep|].
    rewrite Hlast.
    replace (n + 1)%nat with (S (clock_reads w)) by (subst n; lia).
    split; [exact Hfields|]. split; [exact Hfilters|].
    rewrite Hcalls. unfold calls_before_search, search_call.
    rewrite <- Hfields, <- Hfilters. by rewrite <- !app_assoc.
  - intros c Hsame.
    destruct (discovery_clock_only django ext search_term size from_
                field_dictionary w c Hsame) as (Hr & _ & Hobj & Htrace).
    fold run in Hr, Hobj, Htrace. rewrite Hrun in Hr, Hobj, Htrace.
    by repeat split.
  - exists Demo.ticking, (λ i, 100 + 2 * Z.of_nat i). split; [done|].
    vm_compute. discriminate.
Qed.

Lemma clock_read_for_each_use_witness :
  let run := Demo.discover Demo.defaults Demo.services
               (Demo.with_status "ongoing") in
  ∃ fields filters exclude,
    passed_to_engine Demo.start run.2 fields filters exclude ∧
    clock_reads run.2 = 3%nat ∧
    fields !! "start" = Some (VDateRange (DateRange None (Some 100))) ∧
    fields !! "enrollment_start"
      = Some (VDateRange (DateRange None (Some 101))) ∧
    filters !! "enrollment_end" = Some (VDateRange (DateRange (Some 102) None)).
Proof.
  intros run.
  exists (<["enrollment_start" := VDateRange (DateRange None (Some 101))]>
            (<["end" := VDateRange (DateRange (Some 100) None)]>
               (<["start" := VDateRange (DateRange None (Some 100))]>
                  {["org" := VStr "edX"]}))),
         {["enrollment_end" := VDateRange (DateRange (Some 102) None)]},
         {["invitation_only" := VBool false]}.
  assert (Hrun : run = (run.1, run.2)) by (by destruct run).
  assert (Hpassed : passed_to_engine Demo.start run.2
            (<["enrollment_start" := VDateRange (DateRange None (Some 101))]>
               (<["end" := VDateRange (DateRange (Some 100) None)]>
                  (<["start" := VDateRange (DateRange None (Some 100))]>
                     {["org" := VStr "edX"]})))
            {["enrollment_end" := VDateRange (DateRange (Some 102) None)]}
            {["invitation_only" := VBool false]})
    by engine_saw.
  split; [exact Hpassed|]. split.
  - exact (proj1 (clock_read_for_each_use Demo.defaults Demo.services VNone
                    (VInt 20) (VInt 0) (Demo.with_status "ongoing")
                    Demo.start run.1 run.2 _ _ _ Hrun Hpassed)).
  - repeat split; vm_compute; reflexivity.
Defined.

(** C10 as stated fails: with the enrollment start filter switched off, a
    call that gets to the engine has read the clock twice, not three
    times. *)
Lemma two_readings_with_filter_off :
  ¬ (∀ django ext search_term size from_ field_dictionary w r w'
       fields filters exclude,
       course_discovery_search django ext search_term size from_
         field_dictionary w = (r, w') →
       passed_to_engine w w' fields filters exclude →
       clock_reads w' = (clock_reads w + 3)%nat).
Proof.
  intros Hclaim.
  pose (off := Demo.discover Demo.skipping Demo.services None).
  assert (Hrun : off = (off.1, off.2)) by (by destruct off).
  assert (Hpassed : passed_to_engine Demo.start off.2
            {["org" := VStr "edX"]}
            {["enrollment_end" := VDateRange (DateRange (Some 101) None)]} ∅)
    by engine_saw.
  specialize (Hclaim Demo.skipping Demo.services VNone (VInt 20) (VInt 0)
                None Demo.start off.1 off.2 _ _ _ Hrun Hpassed).
  vm_compute in Hclaim. discriminate Hclaim.
Qed.

(** * Properties of [perform_search] *)

(** With an engine behind the index, [perform_search] is the engine's term
    search followed by the post-processing of its response. *)
Lemma perform_search_resolved django ext search_term user size from_
    course_id eng w :
  get_search_engine ext
    (getattr (COURSEWARE_CONTENT_INDEX_NAME django) "courseware_content")
  = Some eng →
  perform_search django ext search_term user size from_ course_id w
  = let '(fields, filters, exclude) :=
      generate_field_filters ext [("user", user); ("course_id", course_id)] in
    match search_string eng search_term fields filters exclude size from_
            (objects w) with
    | (Ok results, h) =>
        post_process ext search_term user results
          (World (clock w) (clock_reads w) h
             (trace w ++
                [CallGenerateFieldFilters
                   [("user", user); ("course_id", course_id)];
                 CallGetSearchEngine
                   (getattr (COURSEWARE_CONTENT_INDEX_NAME django)
                            "courseware_content");
                 CallSearchString search_term fields filters exclude size
                   from_]))
    | (Raise e, h) =>
        (Raise e,
         World (clock w) (clock_reads w) h
           (trace w ++
              [CallGenerateFieldFilters
                 [("user", user); ("course_id", course_id)];
               CallGetSearchEngine
                 (getattr (COURSEWARE_CONTENT_INDEX_NAME django)
                          "courseware_content");
               CallSearchString search_term fields filters exclude size
                 from_]))
    end.
Proof.
  intros Heng. unfold perform_search, call_generate_field_filters,
    call_get_search_engine, call_search_string.
  destruct (generate_field_filters ext _) as [[fields filters] exclude].
  unfold bind, ret, log_call. cbn. rewrite Heng. cbn.
  rewrite <- !app_assoc. cbn.
  by destruct (search_string eng _ _ _ _ _ _ _) as [[results|e] h].
Qed.

(** C4: when the content index resolves to no engine, [perform_search]
    raises [NoSearchEngineError]; by then it has called the filter generator
    and asked for the engine, and nothing else: no term search, no result
    processor, and the heap and the clock are as they were. *)
Theorem perform_search_without_engine django ext search_term user size
    from_ course_id w :
  let index := getattr (COURSEWARE_CONTENT_INDEX_NAME django)
                       "courseware_content" in
  get_search_engine ext index = None →
  ∃ msg w',
    perform_search django ext search_term user size from_ course_id w
    = (Raise (NoSearchEngineError msg), w') ∧
    calls_during w w'
    = [CallGenerateFieldFilters [("user", user); ("course_id", course_id)];
       CallGetSearchEngine index] ∧
    (∀ e, e ∈ calls_during w w' →
          match e with
          | CallSearchString _ _ _ _ _ _ | CallSearch _ _ _ _ _ _ _
          | CallProcessResult _ _ _ => False
          | _ => True
          end) ∧
    objects w' = objects w ∧ clock_reads w' = clock_reads w.
Proof.
  intros index Heng.
  unfold perform_search, call_generate_field_filters, call_get_search_engine.
  destruct (generate_field_filters ext _) as [[fields filters] exclude].
  fold index. unfold bind, ret, log_call, raise. cbn. rewrite Heng.
  eexists _, _. split; [reflexivity|].
  assert (Hcalls : calls_during w
            (World (clock w) (clock_reads w) (objects w)
               ((trace w ++
                 [CallGenerateFieldFilters
                    [("user", user); ("course_id", course_id)]]) ++
                [CallGetSearchEngine index]))
          = [CallGenerateFieldFilters
               [("user", user); ("course_id", course_id)];
             CallGetSearchEngine index]).
  { apply calls_during_app. cbn. by rewrite <- app_assoc. }
  rewrite Hcalls. repeat split.
  intros e. rewrite !elem_of_cons, elem_of_nil.
  intros [->|[->|[]]]; done.
Qed.

Lemma perform_search_without_engine_witness :
  get_search_engine Demo.no_engine "courseware_content" = None ∧
  ∃ msg w',
    perform_search Demo.defaults Demo.no_engine (VStr "term") (VStr "ann")
      (VInt 10) (VInt 0) VNone Demo.stocked
    = (Raise (NoSearchEngineError msg), w') ∧
    calls_during Demo.stocked w'
    = [CallGenerateFieldFilters
         [("user", VStr "ann"); ("course_id", VNone)];
       CallGetSearchEngine "courseware_content"].
Proof.
  split; [reflexivity|].
  destruct (perform_search_without_engine Demo.defaults Demo.no_engine
              (VStr "term") (VStr "ann") (VInt 10) (VInt 0) VNone
              Demo.stocked eq_refl) as (msg & w' & Hrun & Hcalls & _).
  by exists msg, w'.
Defined.

(** C2: for every hit list handed to the post-processing, the number of
    hits returned plus the reported [access_denied_count] is the length of
    the list, and the hits returned are those of the list whose payload is
    not [None] after processing, in the order of the list. The
    post-processing returns whenever every listed object has a payload and
    the processor returns on every payload. *)
Theorem post_process_counts_and_keeps_order ext search_term user results
    hits w :
  results !! "results" = Some (VList hits) →
  (∀ res w',
     post_process ext search_term user results w = (Ok res, w') →
     ∃ visible denied,
       res !! "results" = Some (VList visible) ∧
       res !! "access_denied_count" = Some (VInt (Z.of_nat denied)) ∧
       (length visible + denied = length hits)%nat ∧
       visible = filter (visible_in (objects w')) hits ∧
       sublist visible hits)
  ∧ ((∀ r, r ∈ hits → is_Some (stored_data (objects w) r)) →
     (∀ data,
        ∃ data', process_result ext data search_term user = Ok data') →
     ∃ res w', post_process ext search_term user results w = (Ok res, w')).
Proof.
  intros Hres. split.
  - intros res w' Hrun.
    destruct (post_process_ok_inv _ _ _ _ _ _ _ _ Hres Hrun) as [Hloop ->].
    exists (filter (visible_in (objects w')) hits),
           (length (filter (denied_in (objects w')) hits)).
    unfold processed. rewrite lookup_insert_eq.
    rewrite lookup_insert_ne, lookup_insert_eq by done.
    repeat split; try done.
    + apply denied_visible_partition.
      exact (process_each_all_data _ _ _ _ _ _ Hloop).
    + apply sublist_filter.
  - intros Hall Htotal.
    destruct (process_each_returns ext search_term user hits w Hall Htotal)
      as [w1 Hloop].
    eexists _, w1. exact (post_process_after_loop _ _ _ _ _ _ _ Hres Hloop).
Qed.

Lemma post_process_counts_and_keeps_order_witness :
  Demo.response !! "results" = Some (VList Demo.found) ∧
  ∃ res w',
    Demo.sifted = (Ok res, w') ∧
    res !! "results" = Some (VList [VRef 0%nat; VRef 2%nat]) ∧
    res !! "access_denied_count" = Some (VInt 1) ∧
    (2 + 1 = length Demo.found)%nat.
Proof.
  assert (Hres : Demo.response !! "results" = Some (VList Demo.found))
    by (vm_compute; reflexivity).
  split; [exact Hres|].
  pose proof (post_process_counts_and_keeps_order Demo.services
                (VStr "term") (VStr "ann") Demo.response Demo.found
                Demo.stocked Hres) as [Hright Hreturns].
  destruct Hreturns as (res & w' & Hrun).
  { intros r Hin. unfold Demo.found in Hin.
    rewrite !elem_of_cons, elem_of_nil in Hin.
    destruct Hin as [->|[->|[->|[]]]]; vm_compute; eauto. }
  { intros data. unfold process_result, Demo.services, Demo.hide_secret.
    destruct (py_eq_str data "secret"); eauto. }
  exists res, w'. split; [exact Hrun|].
  destruct (Hright res w' Hrun)
    as (visible & denied & Hvisible & Hdenied & Hsum & Hfilter & _).
  assert (Hworld : w' = snd Demo.sifted)
    by (unfold Demo.sifted in *; by rewrite Hrun).
  assert (Hv : visible = [VRef 0%nat; VRef 2%nat])
    by (rewrite Hfilter, Hworld; vm_compute; reflexivity).
  rewrite Hv in Hvisible, Hsum.
  assert (denied = 1%nat) as ->
    by (unfold Demo.found in Hsum; simpl in Hsum; lia).
  done.
Defined.

(** C8: a hit whose payload the processor returns as it is, and not as
    [None], comes out of the post-processing with that payload, at the place
    in the returned list that follows the visible hits listed before it,
    and the reported [access_denied_count] is the count of the denied among
    the other hits of the list. *)
Theorem unchanged_hit_survives ext search_term user results hits w res w'
    i r data :
  results !! "results" = Some (VList hits) →
  post_process ext search_term user results w = (Ok res, w') →
  hits !! i = Some r →
  stored_data (objects w) r = Some data →
  process_result ext data search_term user = Ok data →
  data ≠ VNone →
  stored_data (objects w') r = Some data
  ∧ (∃ visible,
       res !! "results" = Some (VList visible) ∧
       visible !! length (filter (visible_in (objects w')) (take i hits))
       = Some r)
  ∧ res !! "access_denied_count"
    = Some (VInt (Z.of_nat
                    (length (filter (denied_in (objects w'))
                               (delete i hits))))).
Proof.
  intros Hres Hrun Hi Hdata Hfix Hsome.
  destruct (post_process_ok_inv _ _ _ _ _ _ _ _ Hres Hrun) as [Hloop ->].
  pose proof (process_each_fixed _ _ _ _ _ _ _ _ Hloop Hdata Hfix) as Hafter.
  assert (Hvis : visible_in (objects w') r = true).
  { unfold visible_in, selected_in. rewrite Hafter. by destruct data. }
  assert (Hden : denied_in (objects w') r = false).
  { unfold denied_in, selected_in. rewrite Hafter. by destruct data. }
  split; [exact Hafter|]. unfold processed. split.
  - eexists. rewrite lookup_insert_eq. split; [reflexivity|].
    exact (proj1 (filter_at_kept _ _ _ _ Hi Hvis)).
  - rewrite lookup_insert_ne, lookup_insert_eq by done.
    by rewrite (filter_at_dropped _ _ _ _ Hi Hden).
Qed.

Lemma unchanged_hit_survives_witness :
  Demo.response !! "results" = Some (VList Demo.found) ∧
  Demo.found !! 2%nat = Some (VRef 2%nat) ∧
  stored_data Demo.shelf (VRef 2%nat) = Some (VStr "outro") ∧
  Demo.hide_secret (VStr "outro") (VStr "term") (VStr "ann")
    = Ok (VStr "outro") ∧
  ∃ res w',
    Demo.sifted = (Ok res, w') ∧
    stored_data (objects w') (VRef 2%nat) = Some (VStr "outro") ∧
    res !! "results" = Some (VList [VRef 0%nat; VRef 2%nat]) ∧
    res !! "access_denied_count" = Some (VInt 1).
Proof.
  assert (Hres : Demo.response !! "results" = Some (VList Demo.found))
    by (vm_compute; reflexivity).
  assert (Hrun : Demo.sifted
                 = (Ok (processed (objects (snd Demo.sifted)) Demo.response
                          Demo.found), snd Demo.sifted))
    by (vm_compute; reflexivity).
  split; [exact Hres|]. split; [reflexivity|].
  split; [vm_compute; reflexivity|]. split; [reflexivity|].
  eexists _, _. split; [exact Hrun|].
  destruct (unchanged_hit_survives Demo.services (VStr "term") (VStr "ann")
              Demo.response Demo.found Demo.stocked _ _ 2%nat (VRef 2%nat)
              (VStr "outro") Hres Hrun eq_refl eq_refl eq_refl)
    as (Hsame & _ & _); [discriminate|].
  split; [exact Hsame|]. split; vm_compute; reflexivity.
Defined.

(** C9, as the code has it: the processor denies by returning [None], and
    the post-processing tests the payload against [None] and nothing else:
    a hit object that is listed at one position only and whose payload the
    processor answers with [None], for whatever reason, is left out of the
    returned list and adds one to the reported [access_denied_count]. (An
    object that is listed more than once is processed once for each
    listing, in place, each time on the answer before.) *)
Theorem none_payload_is_a_denial ext search_term user results hits w res w'
    i r data :
  results !! "results" = Some (VList hits) →
  post_process ext search_term user results w = (Ok res, w') →
  hits !! i = Some r →
  r ∉ delete i hits →
  stored_data (objects w) r = Some data →
  process_result ext data search_term user = Ok VNone →
  stored_data (objects w') r = Some VNone
  ∧ (∃ visible, res !! "results" = Some (VList visible) ∧ r ∉ visible)
  ∧ res !! "access_denied_count"
    = Some (VInt (Z.of_nat
                    (S (length (filter (denied_in (objects w'))
                                  (delete i hits)))))).
Proof.
  intros Hres Hrun Hi Helse Hdata Hnone.
  destruct (post_process_ok_inv _ _ _ _ _ _ _ _ Hres Hrun) as [Hloop ->].
  pose proof (process_each_once ext search_term user hits w w' i r data
                VNone Hloop Hi Helse Hdata Hnone) as Hafter.
  assert (Hvis : visible_in (objects w') r = false)
    by (unfold visible_in, selected_in; by rewrite Hafter).
  assert (Hden : denied_in (objects w') r = true)
    by (unfold denied_in, selected_in; by rewrite Hafter).
  split; [exact Hafter|]. unfold processed. split.
  - eexists. rewrite lookup_insert_eq. split; [reflexivity|].
    rewrite list_elem_of_filter. rewrite Hvis. by intros [? _].
  - rewrite lookup_insert_ne, lookup_insert_eq by done.
    by rewrite (filter_at_counted _ _ _ _ Hi Hden).
Qed.

Lemma none_payload_is_a_denial_witness :
  Demo.response !! "results" = Some (VList Demo.found) ∧
  Demo.found !! 1%nat = Some (VRef 1%nat) ∧
  (VRef 1%nat ∉ delete 1%nat Demo.found) ∧
  stored_data Demo.shelf (VRef 1%nat) = Some (VStr "secret") ∧
  Demo.hide_secret (VStr "secret") (VStr "term") (VStr "ann") = Ok VNone ∧
  ∃ res w',
    Demo.sifted = (Ok res, w') ∧
    stored_data (objects w') (VRef 1%nat) = Some VNone ∧
    res !! "results" = Some (VList [VRef 0%nat; VRef 2%nat]) ∧
    res !! "access_denied_count" = Some (VInt 1).
Proof.
  assert (Hres : Demo.response !! "results" = Some (VList Demo.found))
    by (vm_compute; reflexivity).
  assert (Helse : VRef 1%nat ∉ delete 1%nat Demo.found)
    by (unfold Demo.found; simpl; rewrite !not_elem_of_cons;
        repeat split; try discriminate; apply not_elem_of_nil).
  assert (Hrun : Demo.sifted
                 = (Ok (processed (objects (snd Demo.sifted)) Demo.response
                          Demo.found), snd Demo.sifted))
    by (vm_compute; reflexivity).
  split; [exact Hres|]. split; [reflexivity|]. split; [exact Helse|].
  split; [vm_compute; reflexivity|]. split; [reflexivity|].
  eexists _, _. split; [exact Hrun|].
  destruct (none_payload_is_a_denial Demo.services (VStr "term") (VStr "ann")
              Demo.response Demo.found Demo.stocked _ _ 1%nat (VRef 1%nat)
              (VStr "secret") Hres Hrun eq_refl Helse eq_refl eq_refl)
    as (Hsame & _ & _).
  split; [exact Hsame|]. split; vm_compute; reflexivity.
Defined.

(** C9 as stated fails: a hit object that is listed twice is processed
    twice, so that a processor that answers [None] for its payload, and
    something else for [None], leaves it in the returned list. *)
Lemma shared_hit_survives_a_none_answer :
  ¬ (∀ ext search_term user results hits w res w' i r data,
       results !! "results" = Some (VList hits) →
       post_process ext search_term user results w = (Ok res, w') →
       hits !! i = Some r →
       stored_data (objects w) r = Some data →
       process_result ext data search_term user = Ok VNone →
       ∃ visible, res !! "results" = Some (VList visible) ∧ r ∉ visible).
Proof.
  intros Hclaim.
  pose (flip := Collaborators (λ _, (∅, ∅, ∅)) (λ _, None)
                  (λ data _ _, if is_none data then Ok (VStr "back")
                               else Ok VNone)).
  pose (twice := [VRef 1%nat; VRef 1%nat]).
  pose (results := {["results" := VList twice]} : dict).
  pose (run := post_process flip VNone VNone results Demo.stocked).
  assert (Hres : results !! "results" = Some (VList twice))
    by (vm_compute; reflexivity).
  assert (Hrun : run = (Ok (processed (objects run.2) results twice), run.2))
    by (vm_compute; reflexivity).
  assert (Hdata : stored_data (objects Demo.stocked) (VRef 1%nat)
                  = Some (VStr "secret")) by (vm_compute; reflexivity).
  assert (Hkept : filter (visible_in (objects run.2)) twice = twice)
    by (vm_compute; reflexivity).
  destruct (Hclaim flip VNone VNone results twice Demo.stocked _ _ 0%nat
              (VRef 1%nat) (VStr "secret") Hres Hrun eq_refl Hdata eq_refl)
    as (visible & Hvisible & Hout).
  unfold processed in Hvisible. rewrite lookup_insert_eq, Hkept in Hvisible.
  injection Hvisible as <-. apply Hout, list_elem_of_here.
Qed.

(** * Further properties of [course_discovery_search] *)

(** Inserting the empty options under each field of a list gives a
    dictionary that has exactly these fields, beside what was there. *)
Lemma lookup_foldl_insert_empty (fields : list string) :
  ∀ (acc : gmap string dict) k,
    foldl (λ acc field, <[field := ∅]> acc) acc fields !! k
    = if bool_decide (k ∈ fields) then Some ∅ else acc !! k.
Proof.
  induction fields as [|f rest IH]; intros acc k; cbn [foldl].
  - rewrite bool_decide_eq_false_2; [done|]. apply not_elem_of_nil.
  - rewrite IH. destruct (decide (k ∈ rest)) as [Hin|Hnotin].
    + rewrite !bool_decide_eq_true_2; [done| |done].
      apply elem_of_cons. by right.
    + rewrite (bool_decide_eq_false_2 _ Hnotin).
      destruct (decide (k = f)) as [->|Hne].
      * rewrite lookup_insert_eq, bool_decide_eq_true_2; [done|].
        apply list_elem_of_here.
      * rewrite lookup_insert_ne by done.
        rewrite bool_decide_eq_false_2; [done|].
        rewrite not_elem_of_cons. by split.
Qed.

(** X1: unless [COURSE_DISCOVERY_AGGREGATIONS] is set, the aggregation terms
    have one entry for each configured filter field and no other, each with
    empty options. *)
Theorem aggregations_follow_filter_fields django field :
  COURSE_DISCOVERY_AGGREGATIONS django = None →
  course_discovery_aggregations django !! field
  = if bool_decide (field ∈ course_discovery_filter_fields django)
    then Some ∅ else None.
Proof.
  intros Hunset. unfold course_discovery_aggregations. rewrite Hunset. simpl.
  by rewrite lookup_foldl_insert_empty, lookup_empty.
Qed.

Lemma aggregations_follow_filter_fields_witness :
  let django := Settings (Some ["org"; "price"]) None None None None in
  COURSE_DISCOVERY_AGGREGATIONS django = None ∧
  course_discovery_aggregations django !! "price" = Some ∅ ∧
  course_discovery_aggregations django !! "language" = None.
Proof.
  intros django. split; [reflexivity|]. split.
  - exact (aggregations_follow_filter_fields django "price" eq_refl).
  - exact (aggregations_follow_filter_fields django "language" eq_refl).
Defined.

Lemma derived_fields_upcoming today fields :
  derived_fields today "upcoming" fields
  = <["start" := VDateRange (DateRange (Some today) None)]>
      (delete "estatus" fields).
Proof.
  unfold derived_fields.
  replace (split "upcoming") with ["upcoming"] by reflexivity.
  rewrite bool_decide_eq_false_2; [done|].
  rewrite list_elem_of_singleton. done.
Qed.

Lemma derived_fields_finished today fields :
  derived_fields today "finished" fields
  = <["end" := VDateRange (DateRange None (Some today))]>
      (delete "estatus" fields).
Proof.
  unfold derived_fields.
  replace (split "finished") with ["finished"] by reflexivity.
  rewrite bool_decide_eq_false_2; [done|].
  rewrite list_elem_of_singleton. done.
Qed.

(** A status with the token [invitation_only] is none of the three dated
    statuses, so that the token is all that the derivation acts on. *)
Lemma derived_fields_invitation today s fields :
  "invitation_only" ∈ split s →
  derived_fields today s fields
  = <["invitation_only" := VBool true]> (delete "estatus" fields).
Proof.
  intros Hinv. unfold derived_fields, status_dates. simpl.
  rewrite (bool_decide_eq_true_2 _ Hinv).
  repeat case_bool_decide; subst; try done;
    exfalso; revert Hinv; vm_compute split;
    rewrite list_elem_of_singleton; discriminate.
Qed.

(** X2: when the merged field dictionary maps [estatus] to exactly
    ["upcoming"], the dictionary handed to the engine has
    [start = DateRange(now, None)], [now] being the first clock reading, and
    the derivation adds neither an [end] nor an [invitation_only]
    constraint: these stay what the merged dictionary had. *)
Theorem upcoming_status_constraints django ext search_term size from_
    field_dictionary w r w' fields filters exclude :
  merged ext field_dictionary !! "estatus" = Some (VStr "upcoming") →
  course_discovery_search django ext search_term size from_
    field_dictionary w = (r, w') →
  passed_to_engine w w' fields filters exclude →
  fields !! "start"
  = Some (VDateRange (DateRange (Some (clock w (clock_reads w))) None)) ∧
  fields !! "end" = merged ext field_dictionary !! "end" ∧
  fields !! "invitation_only"
  = merged ext field_dictionary !! "invitation_only" ∧
  exclude !! "invitation_only" = Some (VBool false).
Proof.
  intros Hstatus Hrun Hpassed.
  destruct (discovery_passed_inv _ _ _ _ _ _ _ _ _ _ _ _ Hrun Hpassed)
    as (eng & fields1 & _ & Hstep & -> & _).
  apply status_step_inv in Hstep as [[Hnone _]|(s & Hs & -> & ->)];
    [congruence|].
  assert (s = "upcoming") as -> by congruence.
  rewrite !engine_fields_lookup_ne by done.
  rewrite derived_fields_upcoming.
  repeat split; by simplify_map_eq.
Qed.

Lemma upcoming_status_constraints_witness :
  let overrides : option dict :=
    Some {["estatus" := VStr "upcoming"; "end" := VStr "mine"]} in
  let run := Demo.discover Demo.defaults Demo.services overrides in
  ∃ fields filters exclude,
    merged Demo.services overrides !! "estatus" = Some (VStr "upcoming") ∧
    passed_to_engine Demo.start run.2 fields filters exclude ∧
    fields !! "start" = Some (VDateRange (DateRange (Some 100) None)) ∧
    fields !! "end" = Some (VStr "mine") ∧
    fields !! "invitation_only" = None.
Proof.
  intros overrides run.
  exists (<["enrollment_start" := VDateRange (DateRange None (Some 101))]>
            (<["start" := VDateRange (DateRange (Some 100) None)]>
               {["end" := VStr "mine"; "org" := VStr "edX"]})),
         {["enrollment_end" := VDateRange (DateRange (Some 102) None)]},
         {["invitation_only" := VBool false]}.
  assert (Hstatus : merged Demo.services overrides !! "estatus"
                    = Some (VStr "upcoming")) by (vm_compute; reflexivity).
  assert (Hrun : run = (run.1, run.2)) by (by destruct run).
  assert (Hpassed : passed_to_engine Demo.start run.2
            (<["enrollment_start" := VDateRange (DateRange None (Some 101))]>
               (<["start" := VDateRange (DateRange (Some 100) None)]>
                  {["end" := VStr "mine"; "org" := VStr "edX"]}))
            {["enrollment_end" := VDateRange (DateRange (Some 102) None)]}
            {["invitation_only" := VBool false]})
    by engine_saw_at 5%nat.
  split; [exact Hstatus|]. split; [exact Hpassed|].
  destruct (upcoming_status_constraints Demo.defaults Demo.services VNone
              (VInt 20) (VInt 0) overrides Demo.start run.1 run.2 _ _ _
              Hstatus Hrun Hpassed) as (Hstart & Hend & Hinv & _).
  split; [exact Hstart|]. split; [exact Hend|exact Hinv].
Defined.

(** X3: when the merged field dictionary maps [estatus] to exactly
    ["finished"], the dictionary handed to the engine has
    [end = DateRange(None, now)], [now] being the first clock reading, and
    the derivation adds neither a [start] nor an [invitation_only]
    constraint. *)
Theorem finished_status_constraints django ext search_term size from_
    field_dictionary w r w' fields filters exclude :
  merged ext field_dictionary !! "estatus" = Some (VStr "finished") →
  course_discovery_search django ext search_term size from_
    field_dictionary w = (r, w') →
  passed_to_engine w w' fields filters exclude →
  fields !! "end"
  = Some (VDateRange (DateRange None (Some (clock w (clock_reads w))))) ∧
  fields !! "start" = merged ext field_dictionary !! "start" ∧
  fields !! "invitation_only"
  = merged ext field_dictionary !! "invitation_only" ∧
  exclude !! "invitation_only" = Some (VBool false).
Proof.
  intros Hstatus Hrun Hpassed.
  destruct (discovery_passed_inv _ _ _ _ _ _ _ _ _ _ _ _ Hrun Hpassed)
    as (eng & fields1 & _ & Hstep & -> & _).
  apply status_step_inv in Hstep as [[Hnone _]|(s & Hs & -> & ->)];
    [congruence|].
  assert (s = "finished") as -> by congruence.
  rewrite !engine_fields_lookup_ne by done.
  rewrite derived_fields_finished.
  repeat split; by simplify_map_eq.
Qed.

Lemma finished_status_constraints_witness :
  let overrides := Demo.with_status "finished" in
  let run := Demo.discover Demo.skipping Demo.services overrides in
  ∃ fields filters exclude,
    merged Demo.services overrides !! "estatus" = Some (VStr "finished") ∧
    passed_to_engine Demo.start run.2 fields filters exclude ∧
    fields !! "end" = Some (VDateRange (DateRange None (Some 100))) ∧
    fields !! "start" = None.
Proof.
  intros overrides run.
  exists (<["end" := VDateRange (DateRange None (Some 100))]>
            {["org" := VStr "edX"]}),
         {["enrollment_end" := VDateRange (DateRange (Some 101) None)]},
         {["invitation_only" := VBool false]}.
  assert (Hstatus : merged Demo.services overrides !! "estatus"
                    = Some (VStr "finished")) by (vm_compute; reflexivity).
  assert (Hrun : run = (run.1, run.2)) by (by destruct run).
  assert (Hpassed : passed_to_engine Demo.start run.2
            (<["end" := VDateRange (DateRange None (Some 100))]>
               {["org" := VStr "edX"]})
            {["enrollment_end" := VDateRange (DateRange (Some 101) None)]}
            {["invitation_only" := VBool false]})
    by engine_saw_at 4%nat.
  split; [exact Hstatus|]. split; [exact Hpassed|].
  destruct (finished_status_constraints Demo.skipping Demo.services VNone
              (VInt 20) (VInt 0) overrides Demo.start run.1 run.2 _ _ _
              Hstatus Hrun Hpassed) as (Hend & Hstart & _).
  split; [exact Hend|exact Hstart].
Defined.

(** X4: whenever the whitespace tokens of a string status include
    [invitation_only] (the status is [invitation_only] itself, or has it
    among other tokens, in any position), the dictionary handed to the
    engine has [invitation_only = True], and no date constraint is derived:
    [start] and [end] stay what the merged dictionary had. *)
Theorem invitation_only_token_constraints django ext search_term size from_
    field_dictionary s w r w' fields filters exclude :
  merged ext field_dictionary !! "estatus" = Some (VStr s) →
  "invitation_only" ∈ split s →
  course_discovery_search django ext search_term size from_
    field_dictionary w = (r, w') →
  passed_to_engine w w' fields filters exclude →
  fields !! "invitation_only" = Some (VBool true) ∧
  fields !! "start" = merged ext field_dictionary !! "start" ∧
  fields !! "end" = merged ext field_dictionary !! "end" ∧
  exclude !! "invitation_only" = Some (VBool false).
Proof.
  intros Hstatus Hinv Hrun Hpassed.
  destruct (discovery_passed_inv _ _ _ _ _ _ _ _ _ _ _ _ Hrun Hpassed)
    as (eng & fields1 & _ & Hstep & -> & _).
  apply status_step_inv in Hstep as [[Hnone _]|(s' & Hs' & -> & ->)];
    [congruence|].
  assert (s' = s) as -> by congruence.
  rewrite !engine_fields_lookup_ne by done.
  rewrite derived_fields_invitation by done.
  repeat split; by simplify_map_eq.
Qed.

Lemma invitation_only_token_constraints_witness :
  let overrides := Demo.with_status "invitation_only" in
  let run := Demo.discover Demo.defaults Demo.services overrides in
  ∃ fields filters exclude,
    merged Demo.services overrides !! "estatus"
      = Some (VStr "invitation_only") ∧
    ("invitation_only" ∈ split "invitation_only") ∧
    passed_to_engine Demo.start run.2 fields filters exclude ∧
    fields !! "invitation_only" = Some (VBool true) ∧
    fields !! "start" = None ∧
    fields !! "end" = None.
Proof.
  intros overrides run.
  exists (<["enrollment_start" := VDateRange (DateRange None (Some 101))]>
            (<["invitation_only" := VBool true]> {["org" := VStr "edX"]})),
         {["enrollment_end" := VDateRange (DateRange (Some 102) None)]},
         {["invitation_only" := VBool false]}.
  assert (Hstatus : merged Demo.services overrides !! "estatus"
                    = Some (VStr "invitation_only"))
    by (vm_compute; reflexivity).
  assert (Hinv : "invitation_only" ∈ split "invitation_only")
    by (change ("invitation_only" ∈ ["invitation_only"]);
        apply list_elem_of_here).
  assert (Hrun : run = (run.1, run.2)) by (by destruct run).
  assert (Hpassed : passed_to_engine Demo.start run.2
            (<["enrollment_start" := VDateRange (DateRange None (Some 101))]>
               (<["invitation_only" := VBool true]> {["org" := VStr "edX"]}))
            {["enrollment_end" := VDateRange (DateRange (Some 102) None)]}
            {["invitation_only" := VBool false]})
    by engine_saw_at 5%nat.
  split; [exact Hstatus|]. split; [exact Hinv|]. split; [exact Hpassed|].
  destruct (invitation_only_token_constraints Demo.defaults Demo.services
              VNone (VInt 20) (VInt 0) overrides "invitation_only"
              Demo.start run.1 run.2 _ _ _ Hstatus Hinv Hrun Hpassed)
    as (H1 & H2 & H3 & _).
  split; [exact H1|]. split; [exact H2|exact H3].
Defined.

(** X5: a status value that is not a string (a list of statuses, [None], a
    boolean) has no [split]: the call raises [AttributeError] after the
    filter generator and the first clock reading, before the second clock
    reading and before the engine is even looked up. (By then the code has
    written [invitation_only = False] into the generator's exclude
    dictionary; that dictionary is held as a value, and nothing is stated
    here about the write.) *)
Theorem non_string_status_raises django ext search_term size from_
    field_dictionary status_value w :
  merged ext field_dictionary !! "estatus" = Some status_value →
  (∀ s, status_value ≠ VStr s) →
  ∃ w',
    course_discovery_search django ext search_term size from_
      field_dictionary w = (Raise AttributeError, w') ∧
    calls_during w w'
    = [CallGenerateFieldFilters []; CallUtcnow (clock w (clock_reads w))] ∧
    clock_reads w' = S (clock_reads w).
Proof.
  intros Hstatus Hns. eexists. split; [|split].
  - apply (discovery_bad_status _ _ _ _ _ _ status_value w Hstatus).
    intros w0. by apply derive_status_not_str.
  - by apply calls_during_app.
  - done.
Qed.

Lemma non_string_status_raises_witness :
  let overrides : option dict :=
    Some {["estatus" := VList [VStr "ongoing"; VStr "invitation_only"]]} in
  merged Demo.services overrides !! "estatus"
    = Some (VList [VStr "ongoing"; VStr "invitation_only"]) ∧
  (Demo.discover Demo.defaults Demo.services overrides).1
    = Raise AttributeError.
Proof.
  intros overrides.
  assert (Hstatus : merged Demo.services overrides !! "estatus"
            = Some (VList [VStr "ongoing"; VStr "invitation_only"]))
    by (vm_compute; reflexivity).
  split; [exact Hstatus|].
  destruct (non_string_status_raises Demo.defaults Demo.services VNone
              (VInt 20) (VInt 0) overrides _ Demo.start Hstatus)
    as (w' & Hrun & _); [discriminate|].
  unfold Demo.discover. by rewrite Hrun.
Defined.

(** X6: when the course info index resolves to no engine the call never
    returns a result and never queries an engine: it raises, and the
    exception is [NoSearchEngineError] whenever the status value, if there
    is one, is a string. *)
Theorem discovery_without_engine django ext search_term size from_
    field_dictionary w :
  get_search_engine ext (info_index django) = None →
  ∃ e w',
    course_discovery_search django ext search_term size from_
      field_dictionary w = (Raise e, w') ∧
    (∀ ev, ev ∈ calls_during w w' → is_full_search ev = false) ∧
    ((∀ status_value,
        merged ext field_dictionary !! "estatus" = Some status_value →
        ∃ s, status_value = VStr s) →
     e = NoSearchEngineError
           "No search engine specified in settings.SEARCH_ENGINE").
Proof.
  intros Heng.
  destruct (status_step_cases ext field_dictionary (clock w (clock_reads w)))
    as [(fields & exclude & Hstep)|(status_value & Hstatus & Hraise)].
  - eexists _, _. split; [|split].
    + exact (discovery_no_engine _ _ _ _ _ _ fields exclude w Heng Hstep).
    + intros ev. rewrite (calls_during_app _ _ (calls_before_search django w))
        by done.
      unfold calls_before_search.
      destruct (skips django); cbn; rewrite !elem_of_cons, elem_of_nil;
        intros H; repeat destruct H as [H|H]; by subst.
    + done.
  - eexists _, _. split; [|split].
    + exact (discovery_bad_status _ _ _ _ _ _ status_value w Hstatus Hraise).
    + intros ev.
      rewrite (calls_during_app _ _
                 [CallGenerateFieldFilters [];
                  CallUtcnow (clock w (clock_reads w))]) by done.
      rewrite !elem_of_cons, elem_of_nil.
      intros H; repeat destruct H as [H|H]; by subst.
    + intros Hstr. destruct (Hstr _ Hstatus) as [s ->].
      specialize (Hraise idle). rewrite derive_status_str in Hraise.
      discriminate Hraise.
Qed.

Lemma discovery_without_engine_witness :
  get_search_engine Demo.no_engine (info_index Demo.defaults) = None ∧
  (Demo.discover Demo.defaults Demo.no_engine (Demo.with_status "ongoing")).1
  = Raise (NoSearchEngineError
             "No search engine specified in settings.SEARCH_ENGINE").
Proof.
  split; [reflexivity|].
  destruct (discovery_without_engine Demo.defaults Demo.no_engine VNone
              (VInt 20) (VInt 0) (Demo.with_status "ongoing") Demo.start
              eq_refl) as (e & w' & Hrun & _ & Herr).
  unfold Demo.discover. rewrite Hrun. simpl. f_equal. apply Herr.
  intros status_value Hstatus. exists "ongoing".
  vm_compute in Hstatus. congruence.
Defined.

(** X7: the exclude dictionary handed to the engine is the one the filter
    generator returned, with [invitation_only] set to [False] exactly when
    the merged field dictionary has an [estatus] key; without that key it
    is passed on untouched. *)
Theorem exclude_dictionary_passed django ext search_term size from_
    field_dictionary w r w' fields filters exclude :
  course_discovery_search django ext search_term size from_
    field_dictionary w = (r, w') →
  passed_to_engine w w' fields filters exclude →
  exclude = match merged ext field_dictionary !! "estatus" with
            | Some _ =>
                <["invitation_only" := VBool false]> (default_exclude ext)
            | None => default_exclude ext
            end.
Proof.
  intros Hrun Hpassed.
  destruct (discovery_passed_inv _ _ _ _ _ _ _ _ _ _ _ _ Hrun Hpassed)
    as (eng & fields1 & _ & Hstep & _).
  by apply status_step_inv in Hstep as [(-> & _ & ->)|(s & -> & _ & ->)].
Qed.

Lemma exclude_dictionary_passed_witness :
  let ext := Collaborators
               (λ _, (∅, ∅, {["invitation_only" := VBool true]}))
               (λ _, Some Demo.quiet) Demo.hide_secret in
  let plain := Demo.discover Demo.defaults ext None in
  let ongoing := Demo.discover Demo.defaults ext
                   (Demo.with_status "ongoing") in
  (∃ fields filters exclude,
     passed_to_engine Demo.start plain.2 fields filters exclude ∧
     exclude = {["invitation_only" := VBool true]})
  ∧ (∃ fields filters exclude,
       passed_to_engine Demo.start ongoing.2 fields filters exclude ∧
       exclude = {["invitation_only" := VBool false]}).
Proof.
  intros ext plain ongoing. split.
  - assert (Hrun : plain = (plain.1, plain.2)) by (by destruct plain).
    assert (Hpassed : passed_to_engine Demo.start plain.2
              {["enrollment_start" := VDateRange (DateRange None (Some 101))]}
              {["enrollment_end" := VDateRange (DateRange (Some 102) None)]}
              (default_exclude ext))
      by engine_saw_at 5%nat.
    eexists _, _, _. split; [exact Hpassed|].
    exact (exclude_dictionary_passed Demo.defaults ext VNone (VInt 20)
             (VInt 0) None Demo.start plain.1 plain.2 _ _ _ Hrun Hpassed).
  - assert (Hrun : ongoing = (ongoing.1, ongoing.2)) by (by destruct ongoing).
    assert (Hpassed : passed_to_engine Demo.start ongoing.2
              (<["enrollment_start" :=
                   VDateRange (DateRange None (Some 101))]>
                 (<["end" := VDateRange (DateRange (Some 100) None)]>
                    {["start" := VDateRange (DateRange None (Some 100))]}))
              {["enrollment_end" := VDateRange (DateRange (Some 102) None)]}
              (<["invitation_only" := VBool false]> (default_exclude ext)))
      by engine_saw_at 5%nat.
    eexists _, _, _. split; [exact Hpassed|].
    rewrite (exclude_dictionary_passed Demo.defaults ext VNone (VInt 20)
               (VInt 0) (Demo.with_status "ongoing") Demo.start ongoing.1
               ongoing.2 _ _ _ Hrun Hpassed) at 1.
    vm_compute. reflexivity.
Defined.

(** Of the generator's fields the seeded dictionary has ["org"], as the
    generator gave it. *)
Lemma seeded_lookup_org ext :
  seeded ext !! "org" = (generate_field_filters ext []).1.1 !! "org".
Proof.
  unfold seeded.
  destruct ((generate_field_filters ext []).1.1 !! "org") as [v|] eqn:Horg.
  - apply map_lookup_filter_Some. split; [done|]. apply list_elem_of_here.
  - apply map_lookup_filter_None. by left.
Qed.

(** X8: the reserved key [estatus] never reaches the engine: whatever the
    caller's overrides and the status value, the field dictionary handed to
    the engine has no [estatus] entry. *)
Theorem estatus_never_reaches_engine django ext search_term size from_
    field_dictionary w r w' fields filters exclude :
  course_discovery_search django ext search_term size from_
    field_dictionary w = (r, w') →
  passed_to_engine w w' fields filters exclude →
  fields !! "estatus" = None.
Proof.
  intros Hrun Hpassed.
  destruct (discovery_passed_inv _ _ _ _ _ _ _ _ _ _ _ _ Hrun Hpassed)
    as (eng & fields1 & _ & Hstep & -> & _).
  rewrite engine_fields_lookup_ne by done.
  apply status_step_inv in Hstep as [(Hnone & -> & _)|(s & _ & -> & _)];
    [done|apply derived_fields_estatus].
Qed.

Lemma estatus_never_reaches_engine_witness :
  let run := Demo.discover Demo.defaults Demo.services
               (Demo.with_status "archived") in
  ∃ fields filters exclude,
    passed_to_engine Demo.start run.2 fields filters exclude ∧
    fields !! "estatus" = None.
Proof.
  intros run.
  assert (Hrun : run = (run.1, run.2)) by (by destruct run).
  assert (Hpassed : passed_to_engine Demo.start run.2
            (<["enrollment_start" := VDateRange (DateRange None (Some 101))]>
               {["org" := VStr "edX"]})
            {["enrollment_end" := VDateRange (DateRange (Some 102) None)]}
            {["invitation_only" := VBool false]})
    by engine_saw_at 5%nat.
  eexists _, _, _. split; [exact Hpassed|].
  exact (estatus_never_reaches_engine Demo.defaults Demo.services VNone
           (VInt 20) (VInt 0) (Demo.with_status "archived") Demo.start
           run.1 run.2 _ _ _ Hrun Hpassed).
Defined.

(** X9: under a key that the code neither reserves nor writes (any key but
    [estatus], [start], [end], [invitation_only], [enrollment_start]) the
    engine gets the caller's override when there is one; without one it
    gets the generator's value for [org] and nothing for any other key, so
    of the generator's field constraints only [org] reaches the engine. *)
Theorem other_keys_pass_through django ext search_term size from_
    field_dictionary w r w' fields filters exclude k :
  course_discovery_search django ext search_term size from_
    field_dictionary w = (r, w') →
  passed_to_engine w w' fields filters exclude →
  k ∉ ["estatus"; "start"; "end"; "invitation_only"; "enrollment_start"] →
  fields !! k
  = match field_dictionary ≫= (λ overrides, overrides !! k) with
    | Some v => Some v
    | None => if bool_decide (k = "org")
              then (generate_field_filters ext []).1.1 !! "org"
              else None
    end.
Proof.
  intros Hrun Hpassed Hk.
  destruct (discovery_passed_inv _ _ _ _ _ _ _ _ _ _ _ _ Hrun Hpassed)
    as (eng & fields1 & _ & Hstep & -> & _).
  rewrite !not_elem_of_cons in Hk.
  destruct Hk as (? & ? & ? & ? & ? & _).
  rewrite engine_fields_lookup_ne by done.
  assert (Hfields1 : fields1 !! k = merged ext field_dictionary !! k).
  { apply status_step_inv in Hstep as [(_ & -> & _)|(s & _ & -> & _)];
      [done|].
    apply derived_fields_other. rewrite !not_elem_of_cons.
    repeat split; [done..|apply not_elem_of_nil]. }
  rewrite Hfields1, merged_lookup.
  destruct (field_dictionary ≫= _); [done|].
  case_bool_decide as Horg.
  - subst k. apply seeded_lookup_org.
  - by apply seeded_lookup_ne.
Qed.

Lemma other_keys_pass_through_witness :
  let overrides : option dict :=
    Some {["language" := VStr "fr"; "estatus" := VStr "upcoming"]} in
  let run := Demo.discover Demo.defaults Demo.services overrides in
  ∃ fields filters exclude,
    passed_to_engine Demo.start run.2 fields filters exclude ∧
    fields !! "language" = Some (VStr "fr") ∧
    fields !! "org" = Some (VStr "edX") ∧
    fields !! "course" = None.
Proof.
  intros overrides run.
  assert (Hrun : run = (run.1, run.2)) by (by destruct run).
  assert (Hpassed : passed_to_engine Demo.start run.2
            (<["enrollment_start" := VDateRange (DateRange None (Some 101))]>
               (<["start" := VDateRange (DateRange (Some 100) None)]>
                  {["language" := VStr "fr"; "org" := VStr "edX"]}))
            {["enrollment_end" := VDateRange (DateRange (Some 102) None)]}
            {["invitation_only" := VBool false]})
    by engine_saw_at 5%nat.
  assert (Hfree : ∀ k, k ∈ ["language"; "org"; "course"] →
            k ∉ ["estatus"; "start"; "end"; "invitation_only";
                 "enrollment_start"]).
  { intros k Hk. rewrite !elem_of_cons, elem_of_nil in Hk.
    destruct Hk as [->|[->|[->|[]]]]; not_listed. }
  eexists _, _, _. split; [exact Hpassed|].
  split; [|split].
  - rewrite (other_keys_pass_through Demo.defaults Demo.services VNone
               (VInt 20) (VInt 0) overrides Demo.start run.1 run.2 _ _ _
               "language" Hrun Hpassed (Hfree _ (list_elem_of_here _ _))).
    vm_compute. reflexivity.
  - rewrite (other_keys_pass_through Demo.defaults Demo.services VNone
               (VInt 20) (VInt 0) overrides Demo.start run.1 run.2 _ _ _
               "org" Hrun Hpassed
               (Hfree _ (list_elem_of_further _ _ _
                           (list_elem_of_here _ _)))).
    vm_compute. reflexivity.
  - rewrite (other_keys_pass_through Demo.defaults Demo.services VNone
               (VInt 20) (VInt 0) overrides Demo.start run.1 run.2 _ _ _
               "course" Hrun Hpassed
               (Hfree _ (list_elem_of_further _ _ _
                           (list_elem_of_further _ _ _
                              (list_elem_of_here _ _))))).
    vm_compute. reflexivity.
Defined.

(** When every status value is a string, the status derivation completes. *)
Lemma string_status_completes ext field_dictionary today :
  (∀ status_value,
     merged ext field_dictionary !! "estatus" = Some status_value →
     ∃ s, status_value = VStr s) →
  ∃ fields exclude, status_step ext field_dictionary today fields exclude.
Proof.
  intros Hstr.
  destruct (merged ext field_dictionary !! "estatus") as [status_value|]
    eqn:Hstatus.
  - destruct (Hstr _ eq_refl) as [s ->].
    eexists _, _. by apply status_step_str.
  - eexists _, _. by apply status_step_none.
Qed.

(** X10: a call of [course_discovery_search] queries the engine at most
    once, as the last thing it does, with the caller's search term, size and
    offset unchanged and the configured aggregation terms; before that it
    has called no engine and no result processor. *)
Theorem engine_queried_once_and_last django ext search_term size from_
    field_dictionary w r w' fields filters exclude :
  course_discovery_search django ext search_term size from_
    field_dictionary w = (r, w') →
  passed_to_engine w w' fields filters exclude →
  ∃ before,
    calls_during w w'
    = before ++ [CallSearch search_term size from_ fields filters exclude
                   (course_discovery_aggregations django)] ∧
    ∀ ev, ev ∈ before →
          is_full_search ev = false ∧ is_term_search ev = false ∧
          is_processor_call ev = false.
Proof.
  intros Hrun Hpassed.
  destruct (discovery_passed_inv _ _ _ _ _ _ _ _ _ _ _ _ Hrun Hpassed)
    as (eng & fields1 & _ & _ & -> & -> & _ & Hcalls).
  exists (calls_before_search django w
          ++ [CallUtcnow (clock w (end_reading django w))]).
  split.
  - rewrite Hcalls. by rewrite <- app_assoc.
  - intros ev. unfold calls_before_search.
    destruct (skips django); cbn; rewrite !elem_of_cons, elem_of_nil;
      intros H; repeat destruct H as [H|H]; by subst.
Qed.

Lemma engine_queried_once_and_last_witness :
  let run := Demo.discover Demo.skipping Demo.services None in
  ∃ fields filters exclude before,
    passed_to_engine Demo.start run.2 fields filters exclude ∧
    calls_during Demo.start run.2
    = before ++ [CallSearch VNone (VInt 20) (VInt 0) fields filters exclude
                   (course_discovery_aggregations Demo.skipping)] ∧
    ∀ ev, ev ∈ before → is_full_search ev = false.
Proof.
  intros run.
  assert (Hrun : run = (run.1, run.2)) by (by destruct run).
  assert (Hpassed : passed_to_engine Demo.start run.2
            {["org" := VStr "edX"]}
            {["enrollment_end" := VDateRange (DateRange (Some 101) None)]} ∅)
    by engine_saw_at 4%nat.
  destruct (engine_queried_once_and_last Demo.skipping Demo.services VNone
              (VInt 20) (VInt 0) None Demo.start run.1 run.2 _ _ _
              Hrun Hpassed) as (before & Hcalls & Hbefore).
  eexists _, _, _, before. split; [exact Hpassed|]. split; [exact Hcalls|].
  intros ev Hev. by destruct (Hbefore ev Hev).
Defined.

(** X11: with an engine behind the index and a status value that, if
    present, is a string, [course_discovery_search] gives back exactly what
    the engine's [search] gives: its response, unprocessed, or the exception
    it raises; and the heap is as the engine left it. *)
Theorem discovery_returns_engine_answer django ext search_term size from_
    field_dictionary eng w :
  get_search_engine ext (info_index django) = Some eng →
  (∀ status_value,
     merged ext field_dictionary !! "estatus" = Some status_value →
     ∃ s, status_value = VStr s) →
  ∃ r w' fields filters exclude,
    course_discovery_search django ext search_term size from_
      field_dictionary w = (r, w') ∧
    passed_to_engine w w' fields filters exclude ∧
    (r, objects w') =
      search eng search_term size from_ fields filters exclude
        (course_discovery_aggregations django) (objects w).
Proof.
  intros Heng Hstr.
  destruct (string_status_completes ext field_dictionary
              (clock w (clock_reads w)) Hstr) as (fields & exclude & Hstep).
  destruct (discovery_reaches django ext search_term size from_
              field_dictionary eng fields exclude w Heng Hstep)
    as (r & w' & Hrun & Hpassed & Hres).
  by eexists r, w', _, _, _.
Qed.

Lemma discovery_returns_engine_answer_witness :
  get_search_engine Library.broken_services (info_index Demo.defaults)
    = Some Library.broken ∧
  (Demo.discover Demo.defaults Library.broken_services None).1
    = Raise (CollaboratorError "timeout").
Proof.
  split; [reflexivity|].
  destruct (discovery_returns_engine_answer Demo.defaults
              Library.broken_services VNone (VInt 20) (VInt 0) None
              Library.broken Demo.start eq_refl)
    as (r & w' & fields & filters & exclude & Hrun & _ & Hres).
  - intros status_value Hstatus. vm_compute in Hstatus. discriminate Hstatus.
  - unfold Demo.discover. rewrite Hrun. simpl.
    simpl in Hres. by inversion Hres.
Defined.

(** * Status values made of tokens *)

Lemma append_String c (s t : string) :
  String.append (String c s) t = String c (String.append s t).
Proof. reflexivity. Qed.

Lemma append_empty_r (s : string) : String.append s EmptyString = s.
Proof.
  induction s as [|c s IH]; [done|]. by rewrite append_String, IH.
Qed.

Lemma append_String_assoc (s : string) c (t : string) :
  String.append (String.append s (String c EmptyString)) t
  = String.append s (String c t).
Proof.
  induction s as [|c' s IH]; [done|]. by rewrite !append_String, IH.
Qed.

(** Reading characters that are no whitespace extends the token at hand. *)
Lemma split_from_no_space (t : string) : ∀ tok rest,
  no_space t = true →
  split_from tok (String.append t rest)
  = split_from (String.append tok t) rest.
Proof.
  induction t as [|c t IH]; intros tok rest Ht.
  - by rewrite append_empty_r.
  - simpl in Ht. apply andb_prop in Ht as [Hc Ht].
    apply negb_true_iff in Hc. rewrite append_String.
    cbn [split_from]. rewrite Hc.
    rewrite (IH _ _ Ht). by rewrite append_String_assoc.
Qed.

(** [split] undoes [" ".join] on tokens. *)
Lemma split_join_spaces (tokens : list string) :
  Forall (λ t, is_token t = true) tokens →
  split (join_spaces tokens) = tokens.
Proof.
  unfold split. induction 1 as [|t rest Ht _ IH]; [done|].
  unfold is_token in Ht. apply andb_prop in Ht as [Hne Hns].
  apply negb_true_iff in Hne.
  destruct rest as [|t' rest'].
  - change (join_spaces [t]) with t. rewrite <- (append_empty_r t) at 1.
    rewrite (split_from_no_space t _ _ Hns).
    change (String.append EmptyString t) with t.
    cbn [split_from]. by rewrite Hne.
  - change (join_spaces (t :: t' :: rest'))
      with (String.append t (String " " (join_spaces (t' :: rest')))).
    rewrite (split_from_no_space t _ _ Hns).
    change (String.append EmptyString t) with t.
    change (split_from t (String " " (join_spaces (t' :: rest'))))
      with (if bool_decide (t = EmptyString)
            then split_from EmptyString (join_spaces (t' :: rest'))
            else t :: split_from EmptyString (join_spaces (t' :: rest'))).
    by rewrite Hne, IH.
Qed.

(** X19: for a status value made of tokens joined by single spaces,
    [str.split] gives the tokens back, and the test of the code for
    [invitation_only] is membership among the tokens, in whatever position:
    it raises nothing and returns whether [invitation_only] is one of
    them. *)
Theorem invitation_only_is_a_token_test (tokens : list string) w :
  Forall (λ t, is_token t = true) tokens →
  split (join_spaces tokens) = tokens ∧
  wants_invitation_only (VStr (join_spaces tokens)) w
  = (Ok (bool_decide ("invitation_only" ∈ tokens)), w).
Proof.
  intros Htokens. pose proof (split_join_spaces tokens Htokens) as Hsplit.
  split; [exact Hsplit|].
  unfold wants_invitation_only. simpl. case_bool_decide as Hwhole.
  - rewrite Hwhole in Hsplit. rewrite <- Hsplit.
    rewrite bool_decide_eq_true_2; [done|].
    change ("invitation_only" ∈ ["invitation_only"]).
    apply list_elem_of_here.
  - unfold bind, str_split, ret. by rewrite Hsplit.
Qed.

Lemma invitation_only_is_a_token_test_witness :
  Forall (λ t, is_token t = true) ["upcoming"; "invitation_only"] ∧
  join_spaces ["upcoming"; "invitation_only"] = "upcoming invitation_only" ∧
  wants_invitation_only (VStr "upcoming invitation_only") idle
  = (Ok true, idle).
Proof.
  assert (Htokens : Forall (λ t, is_token t = true)
                      ["upcoming"; "invitation_only"])
    by (repeat constructor).
  split; [exact Htokens|]. split; [reflexivity|].
  destruct (invitation_only_is_a_token_test
              ["upcoming"; "invitation_only"] idle Htokens) as [_ Hwants].
  etransitivity; [exact Hwants|]. vm_compute. reflexivity.
Defined.

(** * Further properties of [perform_search] *)

Lemma Forall2_impl_elem {A B} (P Q : A → B → Prop) (l : list A)
    (k : list B) :
  Forall2 P l k → (∀ x y, x ∈ l → P x y → Q x y) → Forall2 Q l k.
Proof.
  induction 1 as [|x y l k Hxy _ IH]; intros Himpl; constructor.
  - apply Himpl; [apply list_elem_of_here|done].
  - apply IH. intros x' y' Hin. apply Himpl. by apply list_elem_of_further.
Qed.

Section PostProcessingCalls.

Context (ext : collaborators) (search_term user : value).

(** The loop calls the processor once for each element, in order; on a list
    without repetition, each time on the payload the element had before the
    loop. *)
Lemma process_each_calls hits : ∀ w w',
  process_each ext search_term user hits w = (Ok tt, w') →
  ∃ datas,
    trace w' = trace w ++ processor_calls search_term user datas ∧
    length datas = length hits ∧
    (NoDup hits →
     Forall2 (λ r data, stored_data (objects w) r = Some data) hits datas).
Proof.
  induction hits as [|r0 rest IH]; intros w w' H.
  - inversion H; subst. exists []. by rewrite app_nil_r.
  - destruct (process_each_not_ref_inv _ _ _ _ _ _ _ H) as [l ->].
    destruct (process_each_cons_inv _ _ _ _ _ _ _ H)
      as (hit & data & data' & Hl & Hd & Hp & Hrest).
    destruct (IH _ _ Hrest) as (datas & Htrace & Hlen & Hdatas).
    exists (data :: datas). split; [|split].
    + rewrite Htrace. simpl. by rewrite <- app_assoc.
    + simpl. by rewrite Hlen.
    + intros [Hfresh Hnodup]%NoDup_cons. constructor.
      * simpl. rewrite Hl. done.
      * apply (Forall2_impl_elem _ _ _ _ (Hdatas Hnodup)).
        intros r d Hin Hr.
        rewrite stored_data_after_turn_other in Hr; [done|].
        intros ->. done.
Qed.

(** The loop over a first part that completes goes on with the rest. *)
Lemma process_each_app_run front : ∀ back w w1,
  process_each ext search_term user front w = (Ok tt, w1) →
  process_each ext search_term user (front ++ back) w
  = process_each ext search_term user back w1.
Proof.
  induction front as [|r0 rest IH]; intros back w w1 H.
  - by inversion H; subst.
  - destruct (process_each_not_ref_inv _ _ _ _ _ _ _ H) as [l ->].
    destruct (process_each_cons_inv _ _ _ _ _ _ _ H)
      as (hit & data & data' & Hl & Hd & Hp & Hrest).
    rewrite <- app_comm_cons.
    rewrite (process_each_cons_run _ _ _ _ _ _ _ _ _ Hl Hd Hp).
    by apply IH.
Qed.

(** When the loop raises, so does the post-processing, in the same world. *)
Lemma post_process_loop_raises results hits w e w1 :
  results !! "results" = Some (VList hits) →
  process_each ext search_term user hits w = (Raise e, w1) →
  post_process ext search_term user results w = (Raise e, w1).
Proof.
  intros Hres Hloop. unfold post_process.
  rewrite (bind_ok (getitem results "results") _ w (VList hits) w);
    [|unfold getitem; by rewrite Hres].
  rewrite (bind_ok (as_list (VList hits)) _ w hits w eq_refl).
  by rewrite (bind_raise _ _ _ _ _ Hloop).
Qed.

End PostProcessingCalls.

(** X12: with an engine behind the content index, [perform_search] hands
    the generator's three dictionaries and the caller's term, size and
    offset to the engine's [search_string] as they are, then calls the
    result processor once for each listed hit, in the order of the list,
    with the search term and the user of the request, and calls nothing
    else; when no hit object is listed twice each call gets the payload the
    engine gave the hit. It reads no clock. *)
Theorem perform_search_call_sequence django ext search_term user size from_
    course_id eng fields filters exclude results h hits w res w' :
  let index := getattr (COURSEWARE_CONTENT_INDEX_NAME django)
                       "courseware_content" in
  let kwargs := [("user", user); ("course_id", course_id)] in
  get_search_engine ext index = Some eng →
  generate_field_filters ext kwargs = (fields, filters, exclude) →
  search_string eng search_term fields filters exclude size from_ (objects w)
    = (Ok results, h) →
  results !! "results" = Some (VList hits) →
  perform_search django ext search_term user size from_ course_id w
    = (Ok res, w') →
  ∃ datas,
    calls_during w w'
    = [CallGenerateFieldFilters kwargs; CallGetSearchEngine index;
       CallSearchString search_term fields filters exclude size from_]
      ++ processor_calls search_term user datas ∧
    length datas = length hits ∧
    (NoDup hits →
     Forall2 (λ r data, stored_data h r = Some data) hits datas) ∧
    clock_reads w' = clock_reads w.
Proof.
  intros index kwargs Heng Hgen Hsearch Hres Hrun.
  rewrite (perform_search_resolved _ _ _ _ _ _ _ eng w Heng) in Hrun.
  fold kwargs index in Hrun. rewrite Hgen, Hsearch in Hrun.
  destruct (post_process_ok_inv _ _ _ _ _ _ _ _ Hres Hrun) as [Hloop _].
  destruct (process_each_calls _ _ _ _ _ _ Hloop)
    as (datas & Htrace & Hlen & Hdatas).
  destruct (process_each_clock _ _ _ _ _ _ Hloop) as [_ Hclock].
  exists datas. repeat split; try done.
  apply calls_during_app. rewrite Htrace. simpl. by rewrite <- app_assoc.
Qed.

Lemma perform_search_call_sequence_witness :
  let run := Library.search_for Library.services in
  ∃ res w',
    run = (Ok res, w') ∧
    calls_during Demo.start w'
    = [CallGenerateFieldFilters
         [("user", VStr "ann"); ("course_id", VStr "c1")];
       CallGetSearchEngine "courseware_content";
       CallSearchString (VStr "term") {["course" := VStr "c1"]}
         {["published" := VBool true]} {["draft" := VBool true]}
         (VInt 10) (VInt 0);
       CallProcessResult (VStr "intro") (VStr "term") (VStr "ann");
       CallProcessResult (VStr "secret") (VStr "term") (VStr "ann");
       CallProcessResult (VStr "outro") (VStr "term") (VStr "ann")].
Proof.
  intros run.
  assert (Hrun : run = (Ok (processed (objects run.2) Demo.response
                              Demo.found), run.2))
    by (vm_compute; reflexivity).
  assert (Hres : Demo.response !! "results" = Some (VList Demo.found))
    by (vm_compute; reflexivity).
  eexists _, _. split; [exact Hrun|].
  destruct (perform_search_call_sequence Demo.defaults Library.services
              (VStr "term") (VStr "ann") (VInt 10) (VInt 0) (VStr "c1")
              Library.librarian _ _ _ Demo.response
              (Demo.shelf ∪ objects Demo.start) Demo.found Demo.start _ _
              eq_refl eq_refl eq_refl Hres Hrun)
    as (datas & Hcalls & Hlen & Hdatas & _).
  rewrite Hcalls. do 3 f_equal.
  assert (Hnodup : NoDup Demo.found).
  { unfold Demo.found.
    repeat (apply NoDup_cons_2;
            [rewrite ?elem_of_cons, elem_of_nil; intros Hin;
             repeat destruct Hin as [Hin|Hin]; by inversion Hin|]).
    apply NoDup_nil_2. }
  specialize (Hdatas Hnodup). unfold Demo.found in Hdatas.
  apply Forall2_cons_inv_l in Hdatas as (d0 & ds0 & H0 & Hdatas & ->).
  apply Forall2_cons_inv_l in Hdatas as (d1 & ds1 & H1 & Hdatas & ->).
  apply Forall2_cons_inv_l in Hdatas as (d2 & ds2 & H2 & Hdatas & ->).
  apply Forall2_nil_inv_l in Hdatas as ->.
  vm_compute in H0, H1, H2.
  injection H0 as <-. injection H1 as <-. injection H2 as <-. reflexivity.
Defined.

(** X13: what [perform_search] returns is the engine's response with two
    entries rewritten: the hit list, cut down to the visible hits, and
    [access_denied_count]. Every other entry of the response (a total, a
    maximum score, facets) comes back as the engine gave it; a total is not
    reduced by the number of denied hits. *)
Theorem perform_search_rewrites_two_entries django ext search_term user size
    from_ course_id eng fields filters exclude results h hits w res w' :
  get_search_engine ext
    (getattr (COURSEWARE_CONTENT_INDEX_NAME django) "courseware_content")
    = Some eng →
  generate_field_filters ext [("user", user); ("course_id", course_id)]
    = (fields, filters, exclude) →
  search_string eng search_term fields filters exclude size from_ (objects w)
    = (Ok results, h) →
  results !! "results" = Some (VList hits) →
  perform_search django ext search_term user size from_ course_id w
    = (Ok res, w') →
  res !! "results" = Some (VList (filter (visible_in (objects w')) hits)) ∧
  res !! "access_denied_count"
  = Some (VInt (Z.of_nat (length (filter (denied_in (objects w')) hits)))) ∧
  ∀ k, k ≠ "results" → k ≠ "access_denied_count" →
       res !! k = results !! k.
Proof.
  intros Heng Hgen Hsearch Hres Hrun.
  rewrite (perform_search_resolved _ _ _ _ _ _ _ eng w Heng) in Hrun.
  rewrite Hgen, Hsearch in Hrun.
  destruct (post_process_ok_inv _ _ _ _ _ _ _ _ Hres Hrun) as [_ ->].
  unfold processed. split; [|split].
  - apply lookup_insert_eq.
  - by rewrite lookup_insert_ne, lookup_insert_eq.
  - intros k Hk1 Hk2. by rewrite !lookup_insert_ne.
Qed.

Lemma perform_search_rewrites_two_entries_witness :
  let run := Library.search_for Library.services in
  ∃ res w',
    run = (Ok res, w') ∧
    res !! "results" = Some (VList [VRef 0%nat; VRef 2%nat]) ∧
    res !! "access_denied_count" = Some (VInt 1) ∧
    res !! "total" = Some (VInt 3).
Proof.
  intros run.
  assert (Hrun : run = (Ok (processed (objects run.2) Demo.response
                              Demo.found), run.2))
    by (vm_compute; reflexivity).
  assert (Hres : Demo.response !! "results" = Some (VList Demo.found))
    by (vm_compute; reflexivity).
  eexists _, _. split; [exact Hrun|].
  destruct (perform_search_rewrites_two_entries Demo.defaults
              Library.services (VStr "term") (VStr "ann") (VInt 10) (VInt 0)
              (VStr "c1") Library.librarian _ _ _ Demo.response
              (Demo.shelf ∪ objects Demo.start) Demo.found Demo.start _ _
              eq_refl eq_refl eq_refl Hres Hrun)
    as (Hvisible & Hcount & Hothers).
  split; [|split].
  - rewrite Hvisible. vm_compute. reflexivity.
  - rewrite Hcount. vm_compute. reflexivity.
  - rewrite (Hothers "total") by discriminate. vm_compute. reflexivity.
Defined.

(** X15: an exception of the result processor is not caught. When the loop
    has completed on the hits listed before a hit and the processor raises
    on that hit's payload, the post-processing raises the same exception;
    the hits before it keep their rewritten payloads, and the hit itself and
    those after it are not written. *)
Theorem processor_exception_propagates ext search_term user results
    front r back data e w w1 :
  results !! "results" = Some (VList (front ++ r :: back)) →
  process_each ext search_term user front w = (Ok tt, w1) →
  stored_data (objects w1) r = Some data →
  process_result ext data search_term user = Raise e →
  ∃ w2,
    post_process ext search_term user results w = (Raise e, w2) ∧
    objects w2 = objects w1 ∧
    trace w2 = trace w1 ++ [CallProcessResult data search_term user].
Proof.
  intros Hres Hfront Hdata Hraise.
  eexists. split.
  - apply (post_process_loop_raises _ _ _ _ _ _ _ _ Hres).
    rewrite (process_each_app_run _ _ _ _ _ _ _ Hfront).
    destruct r as [| | | | | |l]; try discriminate Hdata.
    simpl in Hdata. destruct (objects w1 !! l) as [hit|] eqn:Hl;
      [|discriminate Hdata].
    simpl in Hdata. simpl. unfold bind at 1. unfold deref. rewrite Hl.
    unfold bind at 1. unfold getitem. rewrite Hdata. unfold ret at 1.
    unfold bind at 1. unfold call_process_result, bind at 1, log_call.
    rewrite Hraise. reflexivity.
  - done.
Qed.

Lemma processor_exception_propagates_witness :
  let run := post_process Library.strict_services (VStr "term") (VStr "ann")
               Demo.response Demo.stocked in
  Demo.response !! "results"
    = Some (VList ([VRef 0%nat] ++ VRef 1%nat :: [VRef 2%nat])) ∧
  run.1 = Raise (CollaboratorError "forbidden") ∧
  stored_data (objects run.2) (VRef 1%nat) = Some (VStr "secret").
Proof.
  intros run.
  assert (Hres : Demo.response !! "results"
            = Some (VList ([VRef 0%nat] ++ VRef 1%nat :: [VRef 2%nat])))
    by (vm_compute; reflexivity).
  split; [exact Hres|].
  set (front := process_each Library.strict_services (VStr "term")
                  (VStr "ann") [VRef 0%nat] Demo.stocked).
  assert (Hfront : front = (Ok tt, front.2)) by (vm_compute; reflexivity).
  destruct (processor_exception_propagates Library.strict_services
              (VStr "term") (VStr "ann") Demo.response [VRef 0%nat]
              (VRef 1%nat) [VRef 2%nat] (VStr "secret")
              (CollaboratorError "forbidden") Demo.stocked front.2 Hres
              Hfront)
    as (w2 & Hrun & Hobjects & _).
  - vm_compute. reflexivity.
  - reflexivity.
  - subst run. rewrite Hrun. simpl. split; [reflexivity|].
    rewrite Hobjects. vm_compute. reflexivity.
Defined.

(** X16: an exception of the engine's term search is not caught either:
    [perform_search] raises it, the result processor is never called, and
    the heap is as the engine left it. *)
Theorem engine_exception_propagates django ext search_term user size from_
    course_id eng fields filters exclude e h w :
  let index := getattr (COURSEWARE_CONTENT_INDEX_NAME django)
                       "courseware_content" in
  let kwargs := [("user", user); ("course_id", course_id)] in
  get_search_engine ext index = Some eng →
  generate_field_filters ext kwargs = (fields, filters, exclude) →
  search_string eng search_term fields filters exclude size from_ (objects w)
    = (Raise e, h) →
  ∃ w',
    perform_search django ext search_term user size from_ course_id w
      = (Raise e, w') ∧
    objects w' = h ∧
    calls_during w w'
    = [CallGenerateFieldFilters kwargs; CallGetSearchEngine index;
       CallSearchString search_term fields filters exclude size from_].
Proof.
  intros index kwargs Heng Hgen Hsearch.
  rewrite (perform_search_resolved _ _ _ _ _ _ _ eng w Heng).
  fold kwargs index. rewrite Hgen, Hsearch.
  eexists. split; [reflexivity|]. split; [done|].
  by apply calls_during_app.
Qed.

Lemma engine_exception_propagates_witness :
  get_search_engine Library.broken_services "courseware_content"
    = Some Library.broken ∧
  (Library.search_for Library.broken_services).1
    = Raise (CollaboratorError "timeout").
Proof.
  split; [reflexivity|].
  destruct (engine_exception_propagates Demo.defaults
              Library.broken_services (VStr "term") (VStr "ann") (VInt 10)
              (VInt 0) (VStr "c1") Library.broken _ _ _
              (CollaboratorError "timeout") (objects Demo.start) Demo.start
              eq_refl eq_refl eq_refl) as (w' & Hrun & _).
  unfold Library.search_for. by rewrite Hrun.
Defined.

(** X17: a listed hit object without a ["data"] entry stops the
    post-processing with [KeyError] for that key, before the processor is
    called on it; the hits listed before it have been processed. *)
Theorem hit_without_data_raises ext search_term user results front l back
    hit w w1 :
  results !! "results" = Some (VList (front ++ VRef l :: back)) →
  process_each ext search_term user front w = (Ok tt, w1) →
  objects w1 !! l = Some hit →
  hit !! "data" = None →
  post_process ext search_term user results w = (Raise (KeyError "data"), w1).
Proof.
  intros Hres Hfront Hl Hdata.
  apply (post_process_loop_raises _ _ _ _ _ _ _ _ Hres).
  rewrite (process_each_app_run _ _ _ _ _ _ _ Hfront).
  simpl. unfold bind at 1. unfold deref. rewrite Hl.
  unfold bind at 1. unfold getitem. by rewrite Hdata.
Qed.

Lemma hit_without_data_raises_witness :
  let bare : heap := <[1%nat := {["score" := VInt 2]}]> Demo.shelf in
  let w := World Demo.ticking 0 bare [] in
  let run := post_process Demo.services (VStr "term") (VStr "ann")
               Demo.response w in
  Demo.response !! "results"
    = Some (VList ([VRef 0%nat] ++ VRef 1%nat :: [VRef 2%nat])) ∧
  run.1 = Raise (KeyError "data") ∧
  trace run.2 = [CallProcessResult (VStr "intro") (VStr "term") (VStr "ann")].
Proof.
  intros bare w run.
  assert (Hres : Demo.response !! "results"
            = Some (VList ([VRef 0%nat] ++ VRef 1%nat :: [VRef 2%nat])))
    by (vm_compute; reflexivity).
  split; [exact Hres|].
  set (front := process_each Demo.services (VStr "term") (VStr "ann")
                  [VRef 0%nat] w).
  assert (Hfront : front = (Ok tt, front.2)) by (vm_compute; reflexivity).
  assert (Hl : objects front.2 !! 1%nat = Some {["score" := VInt 2]})
    by (vm_compute; reflexivity).
  assert (Hdata : ({["score" := VInt 2]} : dict) !! "data" = None)
    by (vm_compute; reflexivity).
  pose proof (hit_without_data_raises Demo.services (VStr "term")
                (VStr "ann") Demo.response [VRef 0%nat] 1%nat [VRef 2%nat]
                _ w front.2 Hres Hfront Hl Hdata) as Hrun.
  subst run. rewrite Hrun. simpl. split; [reflexivity|].
  vm_compute. reflexivity.
Defined.

(** X18: the processor's answer replaces the payload. A hit object that is
    listed at one position only, and for whose payload the processor
    answers with a value other than [None], is returned carrying that
    answer, at the place in the returned list that follows the visible hits
    listed before it. *)
Theorem processor_answer_replaces_payload ext search_term user results hits
    w res w' i r data data' :
  results !! "results" = Some (VList hits) →
  post_process ext search_term user results w = (Ok res, w') →
  hits !! i = Some r →
  r ∉ delete i hits →
  stored_data (objects w) r = Some data →
  process_result ext data search_term user = Ok data' →
  data' ≠ VNone →
  stored_data (objects w') r = Some data'
  ∧ ∃ visible,
      res !! "results" = Some (VList visible) ∧
      visible !! length (filter (visible_in (objects w')) (take i hits))
      = Some r.
Proof.
  intros Hres Hrun Hi Helse Hdata Hp Hsome.
  destruct (post_process_ok_inv _ _ _ _ _ _ _ _ Hres Hrun) as [Hloop ->].
  pose proof (process_each_once ext search_term user hits w w' i r data
                data' Hloop Hi Helse Hdata Hp) as Hafter.
  assert (Hvis : visible_in (objects w') r = true).
  { unfold visible_in, selected_in. rewrite Hafter. by destruct data'. }
  split; [exact Hafter|]. unfold processed.
  eexists. rewrite lookup_insert_eq. split; [reflexivity|].
  exact (proj1 (filter_at_kept _ _ _ _ Hi Hvis)).
Qed.

Lemma processor_answer_replaces_payload_witness :
  let stamp := Collaborators Library.generator (λ _, None)
                 (λ data _ _, Ok (VList [data; VStr "seen"])) in
  let run := post_process stamp (VStr "term") (VStr "ann") Demo.response
               Demo.stocked in
  Demo.response !! "results" = Some (VList Demo.found) ∧
  Demo.found !! 1%nat = Some (VRef 1%nat) ∧
  (VRef 1%nat ∉ delete 1%nat Demo.found) ∧
  stored_data (objects run.2) (VRef 1%nat)
    = Some (VList [VStr "secret"; VStr "seen"]).
Proof.
  intros stamp run.
  assert (Hres : Demo.response !! "results" = Some (VList Demo.found))
    by (vm_compute; reflexivity).
  assert (Helse : VRef 1%nat ∉ delete 1%nat Demo.found).
  { unfold Demo.found. simpl. rewrite !elem_of_cons, elem_of_nil.
    intros Hin. repeat destruct Hin as [Hin|Hin]; by inversion Hin. }
  assert (Hrun : run = (Ok (processed (objects run.2) Demo.response
                              Demo.found), run.2))
    by (vm_compute; reflexivity).
  split; [exact Hres|]. split; [reflexivity|]. split; [exact Helse|].
  refine (proj1 (processor_answer_replaces_payload stamp (VStr "term")
                   (VStr "ann") Demo.response Demo.found Demo.stocked _ _
                   1%nat (VRef 1%nat) (VStr "secret") _ Hres Hrun eq_refl
                   Helse _ eq_refl _)).
  - vm_compute. reflexivity.
  - discriminate.
Defined.
